(** * angular-build: configuration resolution and the vendor-bundle gatekeeper

    A shallow embedding of the TypeScript sources

    - [TryBundleDllWebpackPlugin] and [getWebpackStatsConfig]
      (the try-bundle-dll plugin),
    - [parseAssetEntry] (helpers/parse-asset-entry.ts),
    - [getWebpackConfig] and [prepareFilterNames],
    - [getAppDllWebpackConfig] and [getAppDllWebpackConfigPartial]
      (webpack-configs/app/dll.ts),
    - [getStylesConfigPartial] (webpack-configs/styles.ts),

    followed by the properties of the design document that concern them.

    Conventions.  JavaScript strings are modelled by [string] (sequences of
    code units; the sources only inspect ASCII markers).  A function that can
    [throw] returns a [result].  An object used as a dictionary is a [gmap]
    when only its lookups matter and an association list in insertion order
    when its key order is observable.  Node's [path] and [fs] modules, the
    bundler and the helpers that live outside these sources are collaborators:
    they are the fields of a record or the variables of a section. *)

From Stdlib Require Import Ascii.
From stdpp Require Import base option list strings pretty gmap fin_maps.

Open Scope string_scope.

(** ** JavaScript preliminaries *)

Module Js.

(** The error classes the sources construct, and the system errors of [fs]. *)
Inductive error :=
  | Error (msg : string)
  | TypeError (msg : string)
  | SystemError (code : string)
  | InvalidOptionError (msg : string)
  | InvalidConfigError (msg : string)
  | InternalError (msg : string).

(** Outcome of a call that may throw. *)
Inductive result (A : Type) :=
  | Ok (a : A)
  | Throw (e : error).
Arguments Ok {A} a.
Arguments Throw {A} e.

#[global] Instance result_ret : MRet result := fun A a => Ok a.
#[global] Instance result_bind : MBind result := fun A B f r =>
  match r with
  | Ok a => f a
  | Throw e => Throw e
  end.
#[global] Instance result_fmap : FMap result := fun A B f r =>
  match r with
  | Ok a => Ok (f a)
  | Throw e => Throw e
  end.

(** The values that reach an error position (a callback's [err], the reason
    of a rejected promise): [undefined], [null] or an error object. *)
Inductive value :=
  | Undefined
  | Null
  | ErrorObject (e : error).

Definition truthy (v : value) : bool :=
  match v with
  | ErrorObject _ => true
  | Undefined | Null => false
  end.

(** [v != null]: neither [null] nor [undefined]. *)
Definition non_null (v : value) : Prop :=
  v ≠ Null ∧ v ≠ Undefined.

(** Truthiness of an optional string: [undefined] and [''] are falsy. *)
Definition truthy_str (s : option string) : bool :=
  match s with
  | Some s => negb (String.eqb s "")
  | None => false
  end.

(** [s || d] for an optional string. *)
Definition or_else (s : option string) (d : string) : string :=
  match s with
  | Some v => if String.eqb v "" then d else v
  | None => d
  end.

(** [xs.includes(x)] on an array of strings. *)
Definition includes (xs : list string) (x : string) : bool :=
  bool_decide (x ∈ xs).

(** [Object.assign(target, source)] on flat option bags: every own property
    of [source] is written onto [target]; the result is the new contents of
    the (mutated) target. *)
Definition object_assign {V} (target source : gmap string V) : gmap string V :=
  source ∪ target.

End Js.

Import Js.

(** ** The try-bundle-dll plugin *)

Module TryBundleDll.

(** *** Module-level option bags and [getWebpackStatsConfig] *)

(** The two module-level constants are objects on the heap; the function
    hands out a reference to one of them, never a copy. *)
Inductive objref :=
  | WebpackOutputOptionsRef
  | VerboseWebpackOutputOptionsRef.

Record store := {
  webpackOutputOptions : gmap string bool;
  verboseWebpackOutputOptions : gmap string bool
}.

Definition deref (r : objref) (σ : store) : gmap string bool :=
  match r with
  | WebpackOutputOptionsRef => webpackOutputOptions σ
  | VerboseWebpackOutputOptionsRef => verboseWebpackOutputOptions σ
  end.

(** Contents of the store when the module has just been loaded. *)
Definition initial_store : store := {|
  webpackOutputOptions := list_to_map [
    ("colors", true);
    ("hash", true);
    ("timings", true);
    ("chunks", true);
    ("chunkModules", false);
    ("children", false);
    ("modules", false);
    ("reasons", false);
    ("warnings", true);
    ("assets", false);
    ("version", false)];
  verboseWebpackOutputOptions := list_to_map [
    ("children", true);
    ("assets", true);
    ("version", true);
    ("reasons", true);
    ("chunkModules", false)]
|}.

(** [function getWebpackStatsConfig(verbose = false)]: an [undefined]
    argument takes the default.  In the verbose branch [Object.assign]
    writes into the object [webpackOutputOptions] refers to and returns that
    same object. *)
Definition getWebpackStatsConfig (verbose : option bool) (σ : store)
  : objref * store :=
  if default false verbose
  then (WebpackOutputOptionsRef,
        {| webpackOutputOptions :=
             object_assign (webpackOutputOptions σ) (verboseWebpackOutputOptions σ);
           verboseWebpackOutputOptions := verboseWebpackOutputOptions σ |})
  else (WebpackOutputOptionsRef, σ).

(** The option bag a caller reads through the returned reference, right
    after the call. *)
Definition call_result (verbose : option bool) (σ : store) : gmap string bool :=
  let '(r, σ') := getWebpackStatsConfig verbose σ in deref r σ'.

(** A sequence of calls; only the store they leave behind matters. *)
Definition run_calls (calls : list (option bool)) (σ : store) : store :=
  foldl (fun σ v => (getWebpackStatsConfig v σ).2) σ calls.

(** "Every verbose setting has been written into the shared object". *)
Definition verbose_applied (σ : store) : Prop :=
  ∀ k b, verboseWebpackOutputOptions σ !! k = Some b →
         webpackOutputOptions σ !! k = Some b.

(** *** The plugin *)

(** What the bundler reports: [stats.hasErrors()] and the text
    [stats.toString(statsConfig)] renders for a given option bag. *)
Record Stats := {
  hasErrors : bool;
  toString : gmap string bool → string
}.

(** [fs.stat(path, (err, stats) => ...)]: an error, or a stat record of which
    only [isFile()] is read. *)
Inductive stat_outcome :=
  | StatError (e : error)
  | StatOk (isFile : bool).

(** [webpack(config)] may throw, and so may [webpackCompiler.run]; otherwise
    [run] calls back once with [(err, stats)]. *)
Inductive bundler_outcome :=
  | WebpackThrows (e : error)
  | RunThrows (e : error)
  | RunCallback (err : value) (stats : Stats).

(** A settled promise. *)
Inductive settled (A : Type) :=
  | Fulfilled (a : A)
  | Rejected (reason : value).
Arguments Fulfilled {A} a.
Arguments Rejected {A} reason.

Section Plugin.

(** [webpackDllConfig: any]. *)
Variable Config : Type.

Record TryBundleDllPluginOptions := {
  manifestFile : string;
  webpackDllConfig : Config;
  debug : option bool
}.

(** The outside world of one hook invocation. *)
Record world := {
  fs_stat : string → stat_outcome;
  bundler : Config → bundler_outcome
}.

(** Observable actions, in the order they happen. *)
Inductive event :=
  | FsStat (path : string)
  | InvokeBundler (config : Config)
  | ConsoleInfo (text : string)
  | Next (err : value).

Record state := {
  heap : store;
  trace : list event
}.

Definition emit (e : event) (s : state) : state :=
  {| heap := heap s; trace := trace s ++ [e] |}.

(** A promise computation: runs against the state and settles. *)
Definition promise (A : Type) : Type := state → settled A * state.

Definition resolve {A} (a : A) : promise A := fun s => (Fulfilled a, s).
Definition reject {A} (reason : value) : promise A := fun s => (Rejected reason, s).

(** [p.then(f)]: [f] runs only when [p] fulfils; a rejection passes through. *)
Definition then_ {A B} (p : promise A) (f : A → promise B) : promise B :=
  fun s =>
    match p s with
    | (Fulfilled a, s') => f a s'
    | (Rejected r, s') => (Rejected r, s')
    end.

(** [p.catch(h)]: [h] runs only when [p] rejects. *)
Definition catch_ {A} (p : promise A) (h : value → promise A) : promise A :=
  fun s =>
    match p s with
    | (Fulfilled a, s') => (Fulfilled a, s')
    | (Rejected r, s') => h r s'
    end.

Variable w : world.
Variable options : TryBundleDllPluginOptions.

(** [next(err)]: the completion callback of the hook; it is taken to return
    normally. *)
Definition next (err : value) : promise value :=
  fun s => (Fulfilled Undefined, emit (Next err) s).

Definition checkManifestFile : promise bool :=
  fun s =>
    let s := emit (FsStat (manifestFile options)) s in
    match fs_stat w (manifestFile options) with
    | StatError err => (Rejected (ErrorObject err), s)
    | StatOk isFile => (Fulfilled isFile, s)
    end.

(** The run callback: [(err, stats) => ...], settling the promise the
    [else] branch returns.  [reject()] is called without a reason. *)
Definition callback (statsConfig : objref) (err : value) (stats : Stats)
  : promise value :=
  fun s =>
    if truthy err then reject err s
    else
      let s := emit (ConsoleInfo (toString stats (deref statsConfig (heap s)))) s in
      if hasErrors stats
      then reject Undefined s
      else resolve Undefined s.

(** The [else] branch of [tryDll]: create the compiler, fetch the stats
    options, run.  An exception thrown on the way rejects the promise. *)
Definition bundleDll : promise value :=
  fun s =>
    let s := emit (InvokeBundler (webpackDllConfig options)) s in
    match bundler w (webpackDllConfig options) with
    | WebpackThrows e => reject (ErrorObject e) s
    | outcome =>
        let '(statsConfig, σ) := getWebpackStatsConfig (debug options) (heap s) in
        let s := {| heap := σ; trace := trace s |} in
        match outcome with
        | RunCallback err stats => callback statsConfig err stats s
        | RunThrows e | WebpackThrows e => reject (ErrorObject e) s
        end
    end.

Definition tryDll : promise value :=
  catch_
    (then_
       (then_ checkManifestFile
          (fun exists_ : bool => if exists_ then resolve Null else bundleDll))
       (fun _ => next Undefined))
    (fun err => next err).

(** Running the hook from a given heap: the events it produces. *)
Definition hook_trace (σ : store) : list event :=
  trace (tryDll {| heap := σ; trace := [] |}).2.

(** The module-level state the hook leaves behind. *)
Definition heap_after_hook (σ : store) : store :=
  heap (tryDll {| heap := σ; trace := [] |}).2.

Definition bundler_invoked (tr : list event) : Prop :=
  ∃ c, InvokeBundler c ∈ tr.

(** The value the completion callback received, if it was called. *)
Definition completion (tr : list event) : option value :=
  last (omap (fun e => match e with Next v => Some v | _ => None end) tr).

(** The configurations the bundler was invoked with, in order. *)
Definition invocations (tr : list event) : list Config :=
  omap (fun e => match e with InvokeBundler c => Some c | _ => None end) tr.

(** The texts written with [console.info], in order. *)
Definition printed (tr : list event) : list string :=
  omap (fun e => match e with ConsoleInfo t => Some t | _ => None end) tr.

End Plugin.

Arguments FsStat {Config} path.
Arguments InvokeBundler {Config} config.
Arguments ConsoleInfo {Config} text.
Arguments Next {Config} err.

(** *** Two runs of the hook *)

Definition exampleOptions : TryBundleDllPluginOptions unit := {|
  manifestFile := "/proj/dist/vendor-manifest.json";
  webpackDllConfig := tt;
  debug := None
|}.

(** Nothing exists at the manifest path: [fs.stat] calls back with [ENOENT].
    The bundler, were it run, would succeed. *)
Definition missingManifestWorld : world unit := {|
  fs_stat := fun _ => StatError (SystemError "ENOENT");
  bundler := fun _ => RunCallback Null {| hasErrors := false; toString := fun _ => "" |}
|}.

(** The manifest path exists but is not a regular file (a directory sits
    there), and the vendor compilation reports errors. *)
Definition failingBuildWorld : world unit := {|
  fs_stat := fun _ => StatOk false;
  bundler := fun _ =>
    RunCallback Null {| hasErrors := true; toString := fun _ => "ERROR in ./vendor.ts" |}
|}.

End TryBundleDll.

(** ** helpers/parse-asset-entry.ts *)

Module ParseAssetEntry.

(** *** String primitives *)

(** [s.lastIndexOf(c)] for a one-character needle: the index of the last
    occurrence, [-1] when there is none. *)
Fixpoint lastIndexOf_from (c : ascii) (s : string) (i acc : Z) : Z :=
  match s with
  | EmptyString => acc
  | String a s' =>
      lastIndexOf_from c s' (i + 1) (if Ascii.eqb a c then i else acc)
  end.

Definition lastIndexOf (c : ascii) (s : string) : Z :=
  lastIndexOf_from c s 0 (-1).

(** [s.substr(start, len)]. *)
Definition substr (s : string) (start len : nat) : string :=
  String.substring start len s.

(** *** Collaborators: Node's [path] and [fs] *)

Inductive file_kind :=
  | Directory
  | RegularFile.

Record Host := {
  (** [path.isAbsolute(p)] *)
  isAbsolute : string → bool;
  (** [path.resolve(base, p)] *)
  path_resolve : string → string → string;
  (** what is on disk at a resolved path, if anything *)
  fs_lookup : string → option file_kind
}.

(** [fs.existsSync(p)] *)
Definition existsSync (h : Host) (p : string) : bool :=
  bool_decide (is_Some (fs_lookup h p)).

(** [fs.statSync(p).isDirectory()]; the source calls it only behind
    [existsSync(p)], where [statSync] cannot throw for a missing path. *)
Definition statSync_isDirectory (h : Host) (p : string) : bool :=
  match fs_lookup h p with
  | Some Directory => true
  | _ => false
  end.

(** *** Data *)

(** The [from] field: a plain string, or a glob object [{glob, dot?}]. *)
Inductive from_value :=
  | FromPath (p : string)
  | FromGlob (glob : string) (dot : option bool).

(** [AssetEntry] of the models: every field may be missing; a [from] that is
    [null] or [undefined] is [None]. *)
Record AssetEntry := {
  entry_from : option from_value;
  entry_context : option string;
  entry_to : option string
}.

Record AssetParsedEntry := {
  from : from_value;
  context : option string;
  to : option string
}.

(** One element of the [assets] array.  [ItemOther] stands for every element
    that is neither a string nor an object with fields (numbers, booleans,
    [undefined], and [null], which the clone step turns into [{from: null}]). *)
Inductive asset_item :=
  | ItemString (s : string)
  | ItemObject (o : AssetEntry)
  | ItemOther.

(** [assetEntries: string | (string | AssetEntry)[]], possibly absent. *)
Inductive asset_entries :=
  | EntriesAbsent
  | EntriesString (s : string)
  | EntriesArray (items : list asset_item).

(** Truthiness of [asset.from]: an object is truthy, a string unless empty. *)
Definition from_truthy (f : option from_value) : bool :=
  match f with
  | Some (FromPath p) => negb (String.eqb p "")
  | Some (FromGlob _ _) => true
  | None => false
  end.

Section Parser.

Variable h : Host.
Variable baseDir : string.

Definition prepareGlobFn (p : string) : string :=
  if String.eqb p "" then ""
  else if (lastIndexOf "*" p =? -1)%Z
          && negb (isAbsolute h p)
          && existsSync h (path_resolve h baseDir p)
          && statSync_isDirectory h (path_resolve h baseDir p)
  then
    let p := if (lastIndexOf "/" p >? -1)%Z
             then substr p 0 (String.length p - 1)
             else p in
    p +:+ "/**/*"
  else p.

(** The string branch and the [typeof from === 'string'] branch share this
    decision between a literal path and a glob object. *)
Definition parsedFrom (p : string) : from_value :=
  let fromGlob := prepareGlobFn p in
  if String.eqb fromGlob p && isAbsolute h fromGlob
  then FromPath p
  else FromGlob fromGlob (Some true).

(** [Object.assign({ from: null }, entry)] for object elements: a copy with
    the same fields, [from] being [null] when the element has none. *)
Definition cloneEntry (entry : asset_item) : asset_item :=
  match entry with
  | ItemObject o =>
      ItemObject {| entry_from := entry_from o;
                    entry_context := entry_context o;
                    entry_to := entry_to o |}
  | other => other
  end.

Definition parseOne (asset : asset_item) : result AssetParsedEntry :=
  match asset with
  | ItemString asset =>
      Ok {| from := parsedFrom asset; context := Some baseDir; to := None |}
  | ItemObject asset =>
      match entry_from asset with
      | Some f =>
          if from_truthy (Some f) then
            let context := if truthy_str (entry_context asset)
                           then entry_context asset
                           else Some baseDir in
            Ok {| from := match f with
                          | FromPath p => parsedFrom p
                          | FromGlob g d => FromGlob g d
                          end;
                  context := context;
                  to := entry_to asset |}
          else Throw (Error "Invalid 'assets' value in appConfig.")
      | None => Throw (Error "Invalid 'assets' value in appConfig.")
      end
  | ItemOther => Throw (Error "Invalid 'assets' value in appConfig.")
  end.

Definition parseAssetEntry (assetEntries : asset_entries)
  : result (list AssetParsedEntry) :=
  match assetEntries with
  | EntriesAbsent => Ok []
  | EntriesString s =>
      if (String.length s =? 0)%nat then Ok []
      else mapM parseOne (cloneEntry <$> [ItemString s])
  | EntriesArray items =>
      if (length items =? 0)%nat then Ok []
      else mapM parseOne (cloneEntry <$> items)
  end.

End Parser.

(** The reading of the design document: [p] with one trailing separator
    removed, if it has one, and otherwise [p] itself. *)
Definition ends_with_separator (p : string) : bool :=
  match String.get (String.length p - 1) p with
  | Some c => Ascii.eqb c "/"
  | None => false
  end.

Definition strip_trailing_separator (p : string) : string :=
  if ends_with_separator p then substr p 0 (String.length p - 1) else p.

Definition recursive_glob_of (p : string) : string :=
  strip_trailing_separator p +:+ "/**/*".

Definition is_glob_descriptor (e : AssetParsedEntry) : bool :=
  match from e with
  | FromGlob _ _ => true
  | FromPath _ => false
  end.

(** The elements [parseAssetEntry] accepts: strings, and objects whose [from]
    is truthy. *)
Definition valid_item (item : asset_item) : bool :=
  match item with
  | ItemString _ => true
  | ItemObject o => from_truthy (entry_from o)
  | ItemOther => false
  end.

(** *** A small POSIX host, used to run the parser on concrete inputs *)

(** POSIX [path.isAbsolute]: the path starts with a slash. *)
Definition posix_isAbsolute (p : string) : bool :=
  match p with
  | String c _ => Ascii.eqb c "/"
  | EmptyString => false
  end.

(** POSIX [path.resolve(base, p)] for an absolute [base] and paths free of
    [.] and [..] segments and of doubled separators: an absolute [p] wins, a
    relative one is appended; a trailing separator is dropped. *)
Definition posix_resolve (base p : string) : string :=
  if String.eqb p "" then base
  else strip_trailing_separator
         (if posix_isAbsolute p then p else base +:+ "/" +:+ p).

(** A workspace at [/proj] with nested asset directories, one file, and a
    directory outside the workspace. *)
Definition exampleDisk : gmap string file_kind :=
  list_to_map [
    ("/proj", Directory);
    ("/proj/assets", Directory);
    ("/proj/src", Directory);
    ("/proj/src/assets", Directory);
    ("/proj/favicon.ico", RegularFile);
    ("/opt/shared", Directory)].

Definition exampleHost : Host := {|
  isAbsolute := posix_isAbsolute;
  path_resolve := posix_resolve;
  fs_lookup := fun p => exampleDisk !! p
|}.

End ParseAssetEntry.

(** ** [getWebpackConfig] and the project filter *)

Module WebpackConfig.

(** *** [prepareFilterNames] *)

(** [argv.filter] / [options.filter]: [string | string[]]. *)
Inductive filter_arg :=
  | FilterString (s : string)
  | FilterArray (names : list string).

(** White space removed by [String.prototype.trim], among ASCII characters. *)
Definition is_space (c : ascii) : bool :=
  match nat_of_ascii c with
  | 9 | 10 | 11 | 12 | 13 | 32 => true
  | _ => false
  end.

Fixpoint trimStart (s : string) : string :=
  match s with
  | String c s' => if is_space c then trimStart s' else s
  | EmptyString => EmptyString
  end.

Definition trim (s : string) : string :=
  String.rev (trimStart (String.rev (trimStart s))).

Definition nonempty (s : string) : bool := negb (String.eqb s "").

(** A filter value is truthy unless it is the empty string (an array, even
    an empty one, is truthy). *)
Definition filter_truthy (f : filter_arg) : bool :=
  match f with
  | FilterString s => nonempty s
  | FilterArray _ => true
  end.

Definition prepareFilterNames (filter : filter_arg) : list string :=
  match filter with
  | FilterArray names =>
      foldl (fun filterNames filterName =>
               if nonempty filterName && nonempty (trim filterName)
                  && negb (includes filterNames (trim filterName))
               then (filterNames ++ [trim filterName])%list
               else filterNames)
            [] names
  | FilterString s =>
      if nonempty s && nonempty (trim s) then [s] else []
  end.

(** *** Projects and the filter *)

Section Filter.

(** Whatever a project configuration carries besides its name and skip flag. *)
Variable Detail : Type.

Record ProjectConfig := {
  name : option string;
  skip : bool;
  detail : Detail
}.

(** [projectConfig.name && filterNames.includes(projectConfig.name)] *)
Definition named_in (filterNames : list string) (projectConfig : ProjectConfig) : bool :=
  match name projectConfig with
  | Some n => nonempty n && includes filterNames n
  | None => false
  end.

Definition filteredLibConfigs (filterNames : list string)
    (libConfigs : list ProjectConfig) : list ProjectConfig :=
  let filteredLibConfigs :=
    List.filter (fun projectConfig =>
      (length filterNames =? 0)%nat
      || ((0 <? length filterNames)%nat
          && (includes filterNames "libs" || named_in filterNames projectConfig)))
      libConfigs in
  if negb (length filterNames =? 0)%nat
     && (length (List.filter (fun configName => String.eqb configName "apps") filterNames)
           =? length filterNames)%nat
  then []
  else filteredLibConfigs.

Definition filteredAppConfigs (filterNames : list string)
    (appConfigs : list ProjectConfig) : list ProjectConfig :=
  let filteredAppConfigs :=
    List.filter (fun projectConfig =>
      (length filterNames =? 0)%nat
      || ((0 <? length filterNames)%nat
          && (includes filterNames "apps" || named_in filterNames projectConfig)))
      appConfigs in
  if negb (length filterNames =? 0)%nat
     && (length (List.filter (fun configName => String.eqb configName "libs") filterNames)
           =? length filterNames)%nat
  then []
  else filteredAppConfigs.

(** The two groups, their reserved names, and the filter of either group. *)
Inductive kind :=
  | Lib
  | App.

Definition reserved (k : kind) : string :=
  match k with
  | Lib => "libs"
  | App => "apps"
  end.

Definition opposite (k : kind) : kind :=
  match k with
  | Lib => App
  | App => Lib
  end.

Definition filteredConfigs (k : kind) (filterNames : list string)
    (configs : list ProjectConfig) : list ProjectConfig :=
  match k with
  | Lib => filteredLibConfigs filterNames configs
  | App => filteredAppConfigs filterNames configs
  end.

End Filter.

Arguments name {Detail} p.
Arguments skip {Detail} p.
Arguments detail {Detail} p.
Arguments named_in {Detail} filterNames projectConfig.
Arguments filteredLibConfigs {Detail} filterNames libConfigs.
Arguments filteredAppConfigs {Detail} filterNames appConfigs.
Arguments filteredConfigs {Detail} k filterNames configs.

(** *** [getWebpackConfig] *)

(** [/\.json$/i.test(configPath)] *)
Definition lower (c : ascii) : ascii :=
  let n := nat_of_ascii c in
  if (65 <=? n)%nat && (n <=? 90)%nat then ascii_of_nat (n + 32) else c.

Fixpoint lowerCase (s : string) : string :=
  match s with
  | String c s' => String (lower c) (lowerCase s')
  | EmptyString => EmptyString
  end.

Definition test_json_suffix (configPath : string) : bool :=
  (5 <=? String.length configPath)%nat
  && String.eqb
       (lowerCase (String.substring (String.length configPath - 5) 5 configPath))
       ".json".

(** [environment.options], consumed when not driven by the CLI. *)
Record ExtraOptions := {
  opt_clean : bool;
  opt_filter : option filter_arg
}.

(** The environment object.  [options] is [None] when falsy, [Some None]
    when truthy but not an object, [Some (Some o)] when an object. *)
Record Environment := {
  dll : bool;
  options : option (option ExtraOptions)
}.

(** The argument bag; each flag is the truthiness of the property. *)
Record Argv := {
  fromAngularBuildCli : bool;
  argv_clean : bool;
  argv_cleanOutDirs : bool;
  argv_filter : option filter_arg;
  argv_verbose : bool;
  argv_watch : bool;
  argv_w : bool;
  argv_progress : bool
}.

Section GetWebpackConfig.

Variable Detail : Type.
Variable Configuration : Type.

Abbreviation Project := (ProjectConfig Detail).

Record AngularBuildConfig := {
  libs : option (list Project);
  apps : option (list Project);
  logLevel : option string
}.

Record AngularBuildContext := {
  originalConfig : Project;
  projectConfig : Project;
  dllBuildOnly : bool
}.

(** What ends up in the result list: the configuration and, under the CLI,
    the project it was built from ([_projectConfig]). *)
Record Built := {
  wpConfig : Configuration;
  _projectConfig : option Project
}.

(** Everything [getWebpackConfig] reads or calls outside this file. *)
Record Collaborators := {
  (** [process.env.WEBPACK_ENV], parsed: absent, a parse error, or the parsed
      value when it is an object *)
  WEBPACK_ENV : option (result (option Environment));
  (** [existsSync(configPath)] *)
  configExists : string → bool;
  (** [readJsonSync(configPath)], with the message of its exception *)
  readJsonSync : string → string + AngularBuildConfig;
  (** the schema file exists at the first or at the second candidate path *)
  existsSchemaPath : bool;
  (** [validateSchema], errors already formatted and joined *)
  validateSchema : AngularBuildConfig → option string;
  applyAngularBuildConfigDefaults : AngularBuildConfig → result AngularBuildConfig;
  applyProjectConfigWithEnvOverrides : Project → Environment → result Project;
  validateProjectConfig : string → Project → result unit;
  applyProjectConfigDefaults : string → Project → Environment → result Project;
  getLibWebpackConfig : AngularBuildContext → result (option Configuration);
  getAppDllWebpackConfig : AngularBuildContext → result (option Configuration);
  getAppWebpackConfig : AngularBuildContext → result (option Configuration);
  (** [path.dirname] *)
  dirname : string → string
}.

Variable c : Collaborators.

(** The state the function has assembled when it starts on the projects.
    The flags it only stores in the static build context ([watch],
    [progress], the start time, the CLI data) reach the collaborators and
    nothing else. *)
Record Prepared := {
  projectRoot : string;
  fromCli : bool;
  filterNames : list string;
  cleanOutDirs : bool;
  environment : Environment;
  angularBuildConfig : AngularBuildConfig;
  libConfigs : list Project;
  appConfigs : list Project
}.

Definition prepare (configPath : string) (env : option Environment)
    (argv : option Argv) : result Prepared :=
  if negb (nonempty configPath)
  then Throw (InvalidOptionError "The 'configPath' is required.")
  else
    let projectRoot := dirname c configPath in
    let fromAngularBuildCli := from_option fromAngularBuildCli false argv in
    let verbose := from_option argv_verbose false argv in
    let cleanOutDirs :=
      fromAngularBuildCli
      && from_option (fun a => argv_clean a || argv_cleanOutDirs a) false argv in
    let filterNames :=
      match argv with
      | Some a =>
          match argv_filter a with
          | Some f => if fromAngularBuildCli && filter_truthy f
                      then prepareFilterNames f else []
          | None => []
          end
      | None => []
      end in
    (* Prepare environment *)
    env ← (match env, WEBPACK_ENV c with
           | None, Some parsed =>
               if negb fromAngularBuildCli
               then envObj ← parsed; Ok envObj
               else Ok None
           | _, _ => Ok env
           end);
    let environment := default {| dll := false; options := None |} env in
    (* Extract options from environment *)
    let '(environment, cleanOutDirs, filterNames) :=
      match options environment with
      | Some opts =>
          if negb fromAngularBuildCli then
            let extraOptions :=
              default {| opt_clean := false; opt_filter := None |} opts in
            ({| dll := dll environment; options := None |},
             opt_clean extraOptions || cleanOutDirs,
             match opt_filter extraOptions with
             | Some f => if filter_truthy f then prepareFilterNames f
                         else filterNames
             | None => filterNames
             end)
          else (environment, cleanOutDirs, filterNames)
      | None => (environment, cleanOutDirs, filterNames)
      end in
    (* Prepare angular-build.json config *)
    if negb (test_json_suffix configPath)
    then Throw (InvalidOptionError ("Invalid config file, path: " +:+ configPath +:+ "."))
    else if negb (configExists c configPath)
    then Throw (InvalidOptionError
      ("angular-build.json config file does not exist - search location: "
       +:+ configPath +:+ "."
       +:+ "Please use --config=<your config file> option or make sure angular-build.json is existed in current working directory"))
    else
      match readJsonSync c configPath with
      | inl jsonErr =>
          Throw (InvalidConfigError
                   ("Invalid configuration, error: " +:+ jsonErr +:+ "."))
      | inr angularBuildConfig =>
          (* Validate schema *)
          if existsSchemaPath c then
            match validateSchema c angularBuildConfig with
            | Some errMsg =>
                Throw (InvalidConfigError
                         ("Invalid configuration." +:+ String "010" (String "010" errMsg)))
            | None =>
                angularBuildConfig ← applyAngularBuildConfigDefaults c angularBuildConfig;
                let angularBuildConfig :=
                  if verbose
                  then {| libs := libs angularBuildConfig;
                          apps := apps angularBuildConfig;
                          logLevel := Some "debug" |}
                  else angularBuildConfig in
                let libConfigs := default [] (libs angularBuildConfig) in
                let appConfigs := default [] (apps angularBuildConfig) in
                if (length appConfigs =? 0)%nat && (length libConfigs =? 0)%nat
                then Throw (InvalidConfigError "No app or lib project is available.")
                else Ok {| projectRoot := projectRoot;
                           fromCli := fromAngularBuildCli;
                           filterNames := filterNames;
                           cleanOutDirs := cleanOutDirs;
                           environment := environment;
                           angularBuildConfig := angularBuildConfig;
                           libConfigs := libConfigs;
                           appConfigs := appConfigs |}
            end
          else Throw (InternalError "The angular-build schema file doesn't exist.")
      end.

(** [(wpConfig as any)._projectConfig = cloned] under the CLI. *)
Definition tag (p : Prepared) (cloned : Project) (wp : Configuration) : Built :=
  {| wpConfig := wp;
     _projectConfig := if fromCli p then Some cloned else None |}.

(** One iteration of the library loop: [None] when nothing is pushed. *)
Definition buildLib (p : Prepared) (libConfig : Project) : result (option Built) :=
  clonedLibConfig ← applyProjectConfigWithEnvOverrides c libConfig (environment p);
  if skip clonedLibConfig then Ok None
  else
    validateProjectConfig c (projectRoot p) clonedLibConfig;;
    clonedLibConfig ← applyProjectConfigDefaults c (projectRoot p) clonedLibConfig (environment p);
    let angularBuildContext :=
      {| originalConfig := libConfig; projectConfig := clonedLibConfig;
         dllBuildOnly := false |} in
    wpConfig ← getLibWebpackConfig c angularBuildContext;
    Ok (tag p clonedLibConfig <$> (wpConfig : option Configuration)).

(** One iteration of the application loop. *)
Definition buildApp (p : Prepared) (appConfig : Project) : result (option Built) :=
  clonedAppConfig ← applyProjectConfigWithEnvOverrides c appConfig (environment p);
  if skip clonedAppConfig then Ok None
  else
    validateProjectConfig c (projectRoot p) clonedAppConfig;;
    clonedAppConfig ← applyProjectConfigDefaults c (projectRoot p) clonedAppConfig (environment p);
    if dll (environment p) then
      let angularBuildContext :=
        {| originalConfig := appConfig; projectConfig := clonedAppConfig;
           dllBuildOnly := true |} in
      wpConfig ← getAppDllWebpackConfig c angularBuildContext;
      Ok (tag p clonedAppConfig <$> (wpConfig : option Configuration))
    else
      let angularBuildContext :=
        {| originalConfig := appConfig; projectConfig := clonedAppConfig;
           dllBuildOnly := false |} in
      wpConfig ← getAppWebpackConfig c angularBuildContext;
      Ok (tag p clonedAppConfig <$> (wpConfig : option Configuration)).

(** The two loops: [webpackConfigs] when the function reaches its last check. *)
Definition collectConfigs (p : Prepared) : result (list Built) :=
  fromLibs ← mapM (buildLib p) (filteredLibConfigs (filterNames p) (libConfigs p));
  fromApps ← mapM (buildApp p) (filteredAppConfigs (filterNames p) (appConfigs p));
  Ok (omap id fromLibs ++ omap id fromApps)%list.

Definition getWebpackConfig (configPath : string) (env : option Environment)
    (argv : option Argv) : result (list Built) :=
  p ← prepare configPath env argv;
  webpackConfigs ← collectConfigs p;
  if (length webpackConfigs =? 0)%nat
  then Throw (InvalidConfigError "No app or lib project is available.")
  else Ok webpackConfigs.

End GetWebpackConfig.

Arguments prepare {Detail Configuration} c configPath env argv.
Arguments collectConfigs {Detail Configuration} c p.
Arguments getWebpackConfig {Detail Configuration} c configPath env argv.

(** *** A run with one library and one skipped application *)

Definition exampleBuildConfig : AngularBuildConfig unit := {|
  libs := Some [{| name := Some "core"; skip := false; detail := tt |}];
  apps := Some [{| name := Some "web"; skip := true; detail := tt |}];
  logLevel := None
|}.

(** Collaborators that accept everything; a project's configuration is
    rendered by its name. *)
Definition exampleCollaborators : Collaborators unit string := {|
  WEBPACK_ENV := None;
  configExists := fun _ => true;
  readJsonSync := fun _ => inr exampleBuildConfig;
  existsSchemaPath := true;
  validateSchema := fun _ => None;
  applyAngularBuildConfigDefaults := Ok;
  applyProjectConfigWithEnvOverrides := fun p _ => Ok p;
  validateProjectConfig := fun _ _ => Ok ();
  applyProjectConfigDefaults := fun _ p _ => Ok p;
  getLibWebpackConfig := fun ctx => Ok (name (projectConfig _ ctx));
  getAppDllWebpackConfig := fun ctx => Ok (name (projectConfig _ ctx));
  getAppWebpackConfig := fun ctx => Ok (name (projectConfig _ ctx));
  dirname := fun _ => "/proj"
|}.

(** The command line [--filter apps], coming from the CLI. *)
Definition exampleArgv : Argv := {|
  fromAngularBuildCli := true;
  argv_clean := false;
  argv_cleanOutDirs := false;
  argv_filter := Some (FilterString "apps");
  argv_verbose := false;
  argv_watch := false;
  argv_w := false;
  argv_progress := false
|}.

(** *** A run in which one library is rejected *)

Definition brokenBuildConfig : AngularBuildConfig unit := {|
  libs := Some [{| name := Some "core"; skip := false; detail := tt |};
                {| name := None; skip := false; detail := tt |};
                {| name := Some "utils"; skip := false; detail := tt |}];
  apps := Some [{| name := Some "web"; skip := false; detail := tt |}];
  logLevel := None
|}.

(** As [exampleCollaborators], but the validation of a project insists on a
    name. *)
Definition strictCollaborators : Collaborators unit string := {|
  WEBPACK_ENV := None;
  configExists := fun _ => true;
  readJsonSync := fun _ => inr brokenBuildConfig;
  existsSchemaPath := true;
  validateSchema := fun _ => None;
  applyAngularBuildConfigDefaults := Ok;
  applyProjectConfigWithEnvOverrides := fun p _ => Ok p;
  validateProjectConfig := fun _ p =>
    if truthy_str (name p) then Ok ()
    else Throw (InvalidConfigError "The project has no name.");
  applyProjectConfigDefaults := fun _ p _ => Ok p;
  getLibWebpackConfig := fun ctx => Ok (name (projectConfig _ ctx));
  getAppDllWebpackConfig := fun ctx => Ok (name (projectConfig _ ctx));
  getAppWebpackConfig := fun ctx => Ok (name (projectConfig _ ctx));
  dirname := fun _ => "/proj"
|}.

End WebpackConfig.

(** ** The bundler's configuration objects *)

Module Webpack.

(** An entry object: chunk name to module list, keys in insertion order. *)
Definition entry_object : Type := list (string * list string).

(** [Configuration.entry]: a string, an array, an object or a function
    (represented by the object it returns). *)
Inductive entry_value :=
  | EntryString (s : string)
  | EntryArray (items : list string)
  | EntryObject (m : entry_object)
  | EntryFunction (returns : entry_object).

(** Loader options, as far as these sources set them. *)
Inductive opt :=
  | OptBool (b : bool)
  | OptNat (n : nat)
  | OptString (s : string)
  | OptStrings (l : list string)
  | OptPostcssFactory (publicPath baseHref : string) (minimizeCss : bool).

Record use_item := {
  loader : string;
  loader_options : list (string * opt)
}.

(** [use]: a loader chain, or the chain wrapped by [ExtractTextPlugin.extract]. *)
Inductive rule_use :=
  | UseLoaders (chain : list use_item)
  | UseExtractText (chain : list use_item) (publicPath : string).

Record Rule := {
  test : string;
  include : option (list string);
  exclude : option (list string);
  use : rule_use
}.

Inductive plugin :=
  | DllPlugin (context path name : string)
  | WriteStatsJsonWebpackPlugin (outputPath path : string)
      (forceWriteToDisk : bool) (logLevel : option string)
  | WriteAssetsToDiskWebpackPlugin (outputPath : string)
      (emittedPaths exclude : list string) (logLevel : option string)
  | IgnorePlugin (resourceRegExp : string)
  | ExtractTextPlugin (filename : string)
  | SuppressEntryChunksWebpackPlugin (chunks : list string) (supressPattern : string)
  | OtherPlugin (id : string).

(** [webpack.Configuration]; a missing property is [None]. *)
Record Configuration := {
  entry : option entry_value;
  resolve_extensions : option (list string);
  output_publicPath : option string;
  output_library : option string;
  module_rules : option (list Rule);
  plugins : option (list plugin)
}.

(** The object literal [{}]. *)
Definition emptyConfiguration : Configuration := {|
  entry := None;
  resolve_extensions := None;
  output_publicPath := None;
  output_library := None;
  module_rules := None;
  plugins := None
|}.

Definition set_entry (e : entry_value) (c : Configuration) : Configuration := {|
  entry := Some e;
  resolve_extensions := resolve_extensions c;
  output_publicPath := output_publicPath c;
  output_library := output_library c;
  module_rules := module_rules c;
  plugins := plugins c
|}.

(** [!entry]: [undefined], [null] and the empty string are falsy. *)
Definition entry_falsy (e : option entry_value) : bool :=
  match e with
  | None => true
  | Some (EntryString s) => String.eqb s ""
  | Some _ => false
  end.

(** [typeof entry === 'object' && !Object.keys(entry).length]: arrays are
    objects too, with their indices as keys. *)
Definition entry_object_without_keys (e : option entry_value) : bool :=
  match e with
  | Some (EntryObject m) => (length m =? 0)%nat
  | Some (EntryArray items) => (length items =? 0)%nat
  | _ => false
  end.

(** [entryPoints[k]] on an entry object: the value of the first key equal to
    [k], [undefined] when there is none. *)
Fixpoint entry_lookup (m : entry_object) (k : string) : option (list string) :=
  match m with
  | [] => None
  | (k', v) :: rest => if String.eqb k' k then Some v else entry_lookup rest k
  end.

(** "No entry points at all": [entry] absent, or an object with zero keys. *)
Definition no_entry_points (c : Configuration) : Prop :=
  entry c = None ∨ entry c = Some (EntryObject []).

End Webpack.

(** ** webpack-configs/app/dll.ts *)

Module Dll.
Import Webpack.

Record DllParsedResult := {
  tsEntries : list string;
  scriptEntries : list string;
  styleEntries : list string
}.

Record AppProjectConfigInternal := {
  name : option string;
  _index : nat;
  _isDll : bool;
  _projectType : option string;
  root : option string;
  outputPath : option string;
  platformTarget : option string;
  (** [_outputHashing.bundles], when [_outputHashing] is set *)
  _outputHashing : option bool;
  vendorChunkName : option string;
  (** truthiness of [dlls] *)
  dlls : bool;
  _dllParsedResult : option DllParsedResult;
  _tsConfigPath : option string;
  tsConfig : option string;
  publicPath : option string;
  webpackConfig : option string
}.

Record AngularBuildContext := {
  projectConfig : AppProjectConfigInternal;
  (** [buildOptions.logLevel] *)
  logLevel : option string
}.

(** [if (!xs.includes(x)) xs.push(x)] *)
Definition pushUnique (xs : list string) (x : string) : list string :=
  if includes xs x then xs else (xs ++ [x])%list.

(** The three [forEach] loops over the parsed dll result, on the pair
    [(tsEntries, entries)]. *)
Definition collectEntries (dllResult : DllParsedResult) : list string * list string :=
  let '(tsEntries, entries) :=
    foldl (fun '(tsEntries, entries) tsEntry =>
             (pushUnique tsEntries tsEntry, pushUnique entries tsEntry))
          ([], []) (Dll.tsEntries dllResult) in
  let entries := foldl pushUnique entries (scriptEntries dllResult) in
  let entries := foldl pushUnique entries (styleEntries dllResult) in
  (tsEntries, entries).

Section Builders.

(** [AngularBuildContext.workspaceRoot] *)
Variable workspaceRoot : string.
(** [path.resolve(...segments)] *)
Variable path_resolve : list string → string.
(** [outputHashFormat.bundle] *)
Variable outputHashFormat_bundle : string.
Variable resolveLoaderPath : string → result string.
Variable getAngularFixPlugins : AngularBuildContext → result (list plugin).

Definition getAppDllWebpackConfigPartial (angularBuildContext : AngularBuildContext)
  : result Configuration :=
  let logLevel := logLevel angularBuildContext in
  let appConfig := projectConfig angularBuildContext in
  if negb (truthy_str (outputPath appConfig)) then
    Throw (InvalidConfigError
      ("The 'projects["
       +:+ (if truthy_str (name appConfig) then default "" (name appConfig)
            else pretty (_index appConfig))
       +:+ "].outputPath' value is required."))
  else
    let projectRoot := path_resolve [workspaceRoot; or_else (root appConfig) ""] in
    let outputPath := path_resolve [workspaceRoot; default "" (outputPath appConfig)] in
    let libHashFormat :=
      if (negb (truthy_str (platformTarget appConfig))
          || bool_decide (platformTarget appConfig = Some "web"))
         && default false (_outputHashing appConfig)
      then outputHashFormat_bundle
      else "" in
    let libraryName := "[name]_" +:+ or_else (Some libHashFormat) "lib" in
    let vendorChunkName := or_else (vendorChunkName appConfig) "vendor" in
    (* dll *)
    '(tsEntries, entries) ←
      (if dlls appConfig then
         match _dllParsedResult appConfig with
         | None => Throw (InternalError "The 'appConfig._dllParsedResult' is not set")
         | Some dllResult => Ok (collectEntries dllResult)
         end
       else Ok ([], []));
    if (length entries =? 0)%nat then
      Throw (InvalidConfigError
        ("No entry available in 'apps[" +:+ pretty (_index appConfig) +:+ "].dll'."))
    else
      let entryPoints : entry_object := [(vendorChunkName, entries)] in
      let plugins := [
        DllPlugin projectRoot
          (path_resolve [outputPath; vendorChunkName +:+ "-manifest.json"])
          libraryName;
        WriteStatsJsonWebpackPlugin outputPath
          (path_resolve [outputPath; vendorChunkName +:+ "-assets.json"])
          true logLevel;
        WriteAssetsToDiskWebpackPlugin outputPath
          [path_resolve [outputPath; vendorChunkName +:+ "-manifest.json"]]
          [vendorChunkName +:+ "-assets.json"]
          logLevel] in
      rules ←
        (if (0 <? length tsEntries)%nat then
           let tsConfigPath := _tsConfigPath appConfig in
           let tsLoaderOptions := ([
             ("instance",
              OptString ("at-"
                +:+ or_else (name appConfig)
                      ("apps[" +:+ pretty (_index appConfig) +:+ "]")
                +:+ "-loader"));
             ("transpileOnly", OptBool (negb (truthy_str (tsConfig appConfig))));
             ("onlyCompileBundledFiles", OptBool (negb (truthy_str (tsConfig appConfig))));
             ("silent", OptBool (negb (bool_decide (logLevel = Some "debug"))))]
             ++ (if truthy_str (tsConfig appConfig) && truthy_str tsConfigPath
                 then [("configFile", OptString (default "" tsConfigPath))] else [])
             ++ (if truthy_str logLevel
                 then [("logLevel", OptString (default "" logLevel))] else []))%list in
           tsLoader ← resolveLoaderPath "ts-loader";
           Ok [{| test := "\.ts$";
                  include := Some tsEntries;
                  exclude := None;
                  use := UseLoaders [{| loader := tsLoader;
                                        loader_options := tsLoaderOptions |}] |}]
         else Ok []);
      fixPlugins ← getAngularFixPlugins angularBuildContext;
      let plugins := (plugins ++ [IgnorePlugin "^vertx$"] ++ fixPlugins)%list in
      Ok {| entry := Some (EntryObject entryPoints);
            resolve_extensions :=
              Some (if (0 <? length tsEntries)%nat then [".ts"; ".js"] else [".js"]);
            output_publicPath := Some (or_else (publicPath appConfig) "/");
            output_library := Some libraryName;
            module_rules := Some rules;
            plugins := Some plugins |}.

Variable getCustomWebpackConfig : string → AngularBuildContext → result (option Configuration).
Variable getAppCommonWebpackConfigPartial : AngularBuildContext → result Configuration.
Variable getAppStylesWebpackConfigPartial : AngularBuildContext → result Configuration.
Variable webpackMerge : list Configuration → Configuration.

(** The list of fragments handed to [webpackMerge], built left to right. *)
Definition fragments (angularBuildContext : AngularBuildContext)
  : result (list Configuration) :=
  let appConfig := projectConfig angularBuildContext in
  customWebpackConfig ←
    (if truthy_str (webpackConfig appConfig) then
       let customWebpackConfigPath :=
         path_resolve [workspaceRoot; or_else (root appConfig) "";
                       default "" (webpackConfig appConfig)] in
       custom ← getCustomWebpackConfig customWebpackConfigPath angularBuildContext;
       Ok (default emptyConfiguration (custom : option Configuration))
     else Ok emptyConfiguration);
  common ← getAppCommonWebpackConfigPartial angularBuildContext;
  styles ← getAppStylesWebpackConfigPartial angularBuildContext;
  dllPartial ← getAppDllWebpackConfigPartial angularBuildContext;
  Ok [common; styles; dllPartial; customWebpackConfig].

Definition getAppDllWebpackConfig (angularBuildContext : AngularBuildContext)
  : result Configuration :=
  let appConfig := projectConfig angularBuildContext in
  if negb (_isDll appConfig)
     || negb (bool_decide (_projectType appConfig = Some "app"))
  then Ok emptyConfiguration
  else
    configs ← fragments angularBuildContext;
    let mergedConfig := webpackMerge configs in
    if entry_falsy (entry mergedConfig)
       || entry_object_without_keys (entry mergedConfig)
    then Ok (set_entry (EntryFunction []) mergedConfig)
    else Ok mergedConfig.

End Builders.

(** *** A vendor-bundle project *)

(** The parsed dll result lists [src/polyfills.ts] twice among the ts
    entries and once more among the scripts. *)
Definition exampleDllContext : AngularBuildContext := {|
  projectConfig := {|
    name := Some "web";
    _index := 0;
    _isDll := true;
    _projectType := Some "app";
    root := None;
    outputPath := Some "dist";
    platformTarget := Some "web";
    _outputHashing := None;
    vendorChunkName := None;
    dlls := true;
    _dllParsedResult := Some {|
      tsEntries := ["src/polyfills.ts"; "src/polyfills.ts"];
      scriptEntries := ["node_modules/jquery/dist/jquery.js"; "src/polyfills.ts"];
      styleEntries := ["node_modules/bootstrap/dist/css/bootstrap.css"]
    |};
    _tsConfigPath := None;
    tsConfig := None;
    publicPath := None;
    webpackConfig := None
  |};
  logLevel := None
|}.

(** Segments joined by a separator, empty ones left out. *)
Definition joinSegments (segments : list string) : string :=
  foldl (fun acc seg =>
           if String.eqb seg "" then acc
           else if String.eqb acc "" then seg
           else acc +:+ "/" +:+ seg)
        "" segments.

(** A merge in which the last fragment alone decides: enough to produce a
    merged configuration without entry points. *)
Definition lastFragment (configs : list Configuration) : Configuration :=
  default emptyConfiguration (last configs).

End Dll.

(** ** webpack-configs/styles.ts *)

Module Styles.

(** Output of [parseStyleEntry]: the resolved file and the chunk it goes to. *)
Record StyleParsedEntry := {
  path : string;
  entry : string
}.

(** The predefined flags of the environment that this builder reads. *)
Record Environment := {
  dll : bool;
  test : bool
}.

Record BuildOptions := {
  environment : option Environment;
  production : bool;
  build_publicPath : option string;
  build_baseHref : option string
}.

Section Builder.

(** An element of [projectConfig.styles], as the user wrote it. *)
Variable StyleEntry : Type.

Record ProjectConfig := {
  srcDir : option string;
  extractCss : bool;
  sourceMap : bool;
  publicPath : option string;
  baseHref : option string;
  (** [stylePreprocessorOptions.includePaths] *)
  includePaths : option (list string);
  styles : option (list StyleEntry);
  projectType : option string;
  platformTarget : option string;
  appendOutputHash : bool
}.

Record WebpackConfigOptions := {
  projectRoot : string;
  buildOptions : BuildOptions;
  projectConfig : ProjectConfig
}.

(** [path.resolve(a, b)] *)
Variable path_resolve : string → string → string.
(** [parseStyleEntry(styles, srcDir, 'styles')] of the helpers *)
Variable parseStyleEntry : list StyleEntry → string → string → result (list StyleParsedEntry).

(** [entryPoints[style.entry] ? entryPoints[style.entry].push(style.path)
                              : entryPoints[style.entry] = [style.path]]
    on an object whose keys are ordinary chunk names. *)
Fixpoint addStyleEntry (entryPoints : Webpack.entry_object) (style : StyleParsedEntry)
  : Webpack.entry_object :=
  match entryPoints with
  | [] => [(entry style, [path style])]
  | (k, paths) :: rest =>
      if String.eqb k (entry style)
      then (k, (paths ++ [path style])%list) :: rest
      else (k, paths) :: addStyleEntry rest style
  end.

(** The condition of the [// app only] block. *)
Definition mainWebBuild (projectConfig : ProjectConfig) (environment : Environment) : bool :=
  bool_decide (projectType projectConfig = Some "app")
  && bool_decide (platformTarget projectConfig = Some "web")
  && negb (dll environment) && negb (test environment).

(** [buildOptions.environment || {}] *)
Definition activeEnvironment (webpackConfigOptions : WebpackConfigOptions) : Environment :=
  default {| dll := false; test := false |}
    (environment (buildOptions webpackConfigOptions)).

(** [srcDir]: the project's source directory, resolved. *)
Definition resolvedSrcDir (webpackConfigOptions : WebpackConfigOptions) : string :=
  let projectRoot := projectRoot webpackConfigOptions in
  let projectConfig := projectConfig webpackConfigOptions in
  if truthy_str (srcDir projectConfig)
  then path_resolve projectRoot (default "" (srcDir projectConfig))
  else projectRoot.

(** [globalStyleParsedEntries]: the global styles, parsed when there are any. *)
Definition parseGlobalStyles (webpackConfigOptions : WebpackConfigOptions)
  : result (list StyleParsedEntry) :=
  match styles (projectConfig webpackConfigOptions) with
  | Some styles =>
      if (0 <? length styles)%nat
      then parseStyleEntry styles (resolvedSrcDir webpackConfigOptions) "styles"
      else Ok []
  | None => Ok []
  end.

Definition getStylesConfigPartial (webpackConfigOptions : WebpackConfigOptions)
  : result Webpack.Configuration :=
  let buildOptions := buildOptions webpackConfigOptions in
  let projectConfig := projectConfig webpackConfigOptions in
  let environment := activeEnvironment webpackConfigOptions in
  let srcDir := resolvedSrcDir webpackConfigOptions in
  let cssSourceMap := extractCss projectConfig && sourceMap projectConfig in
  let minimizeCss := production buildOptions in
  let publicPath :=
    or_else (publicPath projectConfig) (or_else (build_publicPath buildOptions) "") in
  let baseHref :=
    or_else (baseHref projectConfig) (or_else (build_baseHref buildOptions) "") in
  let includePaths :=
    path_resolve srcDir <$> default [] (includePaths projectConfig) in
  (* base rules to derive final rules from *)
  let baseRules : list (string * list Webpack.use_item) := [
    ("\.css$", []);
    ("\.scss$|\.sass$",
     [{| Webpack.loader := "sass-loader";
         Webpack.loader_options := [
           ("sourceMap", Webpack.OptBool cssSourceMap);
           ("precision", Webpack.OptNat 8);
           ("includePaths", Webpack.OptStrings includePaths)] |}]);
    ("\.less$",
     [{| Webpack.loader := "less-loader";
         Webpack.loader_options := [("sourceMap", Webpack.OptBool cssSourceMap)] |}])] in
  let commonLoaders : list Webpack.use_item := [
    {| Webpack.loader := "css-loader";
       Webpack.loader_options := [
         ("sourceMap", Webpack.OptBool cssSourceMap);
         ("importLoaders", Webpack.OptNat 1)] |};
    {| Webpack.loader := "postcss-loader";
       Webpack.loader_options := [
         ("ident", Webpack.OptString "postcss");
         ("plugins", Webpack.OptPostcssFactory publicPath baseHref minimizeCss)] |}] in
  (* process global styles *)
  globalStyleParsedEntries ← parseGlobalStyles webpackConfigOptions;
  let globalStylePaths := path <$> (globalStyleParsedEntries : list StyleParsedEntry) in
  let styleRules : list Webpack.Rule :=
    (fun '(test, use) =>
       {| Webpack.test := test;
          Webpack.include := None;
          Webpack.exclude := Some globalStylePaths;
          Webpack.use := Webpack.UseLoaders
            ([{| Webpack.loader := "exports-loader?module.exports.toString()";
                 Webpack.loader_options := [] |}] ++ commonLoaders ++ use)%list |})
    <$> baseRules in
  (* app only *)
  let '(entryPoints, styleRules, stylePlugins) :=
    if mainWebBuild projectConfig environment then
      let hashFormat :=
        if appendOutputHash projectConfig then ".[contenthash:20]" else "" in
      (* load global css as css files *)
      let '(entryPoints, styleRules) :=
        if (0 <? length globalStyleParsedEntries)%nat then
          (foldl addStyleEntry [] globalStyleParsedEntries,
           (styleRules ++
            ((fun '(test, use) =>
                let extractTextPlugin_use := (commonLoaders ++ use)%list in
                {| Webpack.test := test;
                   Webpack.include := Some globalStylePaths;
                   Webpack.exclude := None;
                   Webpack.use :=
                     if extractCss projectConfig
                     then Webpack.UseExtractText extractTextPlugin_use ""
                     else Webpack.UseLoaders
                            ({| Webpack.loader := "style-loader";
                                Webpack.loader_options := [] |}
                             :: extractTextPlugin_use) |})
             <$> baseRules))%list)
        else ([], styleRules) in
      (* suppress empty .js files in css only entry points *)
      let stylePlugins :=
        if extractCss projectConfig then
          [Webpack.ExtractTextPlugin ("[name]" +:+ hashFormat +:+ ".css");
           Webpack.SuppressEntryChunksWebpackPlugin
             (fst <$> (entryPoints : Webpack.entry_object)) "\.js(\.map)?$"]
        else [] in
      (entryPoints, styleRules, stylePlugins)
    else ([], styleRules, []) in
  Ok {| Webpack.entry := Some (Webpack.EntryObject entryPoints);
        Webpack.resolve_extensions := None;
        Webpack.output_publicPath := None;
        Webpack.output_library := None;
        Webpack.module_rules := Some styleRules;
        Webpack.plugins := Some stylePlugins |}.

End Builder.

Arguments srcDir {StyleEntry} p.
Arguments extractCss {StyleEntry} p.
Arguments styles {StyleEntry} p.
Arguments projectType {StyleEntry} p.
Arguments platformTarget {StyleEntry} p.
Arguments appendOutputHash {StyleEntry} p.
Arguments projectConfig {StyleEntry} w.
Arguments buildOptions {StyleEntry} w.
Arguments activeEnvironment {StyleEntry} webpackConfigOptions.
Arguments mainWebBuild {StyleEntry} projectConfig environment.
Arguments parseGlobalStyles {StyleEntry} path_resolve parseStyleEntry webpackConfigOptions.
Arguments getStylesConfigPartial {StyleEntry} path_resolve parseStyleEntry webpackConfigOptions.

(** *** A web application with two global style sheets *)

Definition exampleStylesOptions (env : Environment) : WebpackConfigOptions string := {|
  projectRoot := "/proj";
  buildOptions := {|
    environment := Some env;
    production := false;
    build_publicPath := None;
    build_baseHref := None
  |};
  projectConfig := {|
    srcDir := Some "src";
    extractCss := true;
    sourceMap := false;
    publicPath := None;
    baseHref := None;
    includePaths := None;
    styles := Some ["styles.css"; "theme.css"];
    projectType := Some "app";
    platformTarget := Some "web";
    appendOutputHash := false
  |}
|}.

Definition examplePathResolve (base p : string) : string := base +:+ "/" +:+ p.

(** Every global style goes to the chunk [styles]. *)
Definition exampleParseStyleEntry (styles : list string) (baseDir : string)
    (defaultEntry : string) : result (list StyleParsedEntry) :=
  Ok ((fun s => {| path := examplePathResolve baseDir s; entry := defaultEntry |})
        <$> styles).

End Styles.

(** * Properties *)

(** ** Sequencing of calls that may throw *)

Lemma bind_Ok_inv {A B} (r : result A) (f : A → result B) (b : B) :
  r ≫= f = Ok b → ∃ a, r = Ok a ∧ f a = Ok b.
Proof. destruct r as [a|e]; [|done]. intros Hf. by exists a. Qed.

(** ** The stats options are shared, mutable state *)

Section StatsConfig.
Import TryBundleDll.

(** The verbose bag is only ever read. *)
Lemma getWebpackStatsConfig_verbose_bag v σ :
  verboseWebpackOutputOptions (getWebpackStatsConfig v σ).2
  = verboseWebpackOutputOptions σ.
Proof. unfold getWebpackStatsConfig. by destruct (default false v). Qed.

Lemma run_calls_verbose_bag calls σ :
  verboseWebpackOutputOptions (run_calls calls σ) = verboseWebpackOutputOptions σ.
Proof.
  revert σ. induction calls as [|v calls IH]; intros σ; [done|].
  cbn. unfold run_calls in IH. rewrite IH.
  apply getWebpackStatsConfig_verbose_bag.
Qed.

(** The function always answers with the one shared object. *)
Lemma getWebpackStatsConfig_ref v σ :
  (getWebpackStatsConfig v σ).1 = WebpackOutputOptionsRef.
Proof. unfold getWebpackStatsConfig. by destruct (default false v). Qed.

Lemma verbose_call_applies σ :
  verbose_applied (getWebpackStatsConfig (Some true) σ).2.
Proof.
  intros k b Hk. cbn in *. unfold object_assign.
  by apply lookup_union_Some_l.
Qed.

Lemma verbose_applied_step v σ :
  verbose_applied σ → verbose_applied (getWebpackStatsConfig v σ).2.
Proof.
  intros Hσ. unfold getWebpackStatsConfig.
  destruct (default false v); [|exact Hσ].
  intros k b Hk. cbn in *. unfold object_assign.
  by apply lookup_union_Some_l.
Qed.

Lemma verbose_applied_run calls σ :
  verbose_applied σ → verbose_applied (run_calls calls σ).
Proof.
  revert σ. induction calls as [|v calls IH]; intros σ Hσ; [done|].
  cbn. apply IH. by apply verbose_applied_step.
Qed.

(** After a verbose call, a setting of the verbose bag is read back from
    every later call. *)
Lemma call_result_after_verbose (before after : list (option bool))
    (verbose : option bool) (k : string) (σ : store) :
  let σ1 := (getWebpackStatsConfig (Some true) (run_calls before σ)).2 in
  verboseWebpackOutputOptions σ1 = verboseWebpackOutputOptions initial_store →
  verboseWebpackOutputOptions initial_store !! k = Some true →
  call_result verbose (run_calls after σ1) !! k = Some true.
Proof.
  intros σ1 Hbag Hk. unfold call_result.
  pose proof (getWebpackStatsConfig_ref verbose (run_calls after σ1)) as Href.
  assert (verbose_applied (getWebpackStatsConfig verbose (run_calls after σ1)).2)
    as Happ.
  { apply verbose_applied_step, verbose_applied_run. subst σ1.
    apply verbose_call_applies. }
  assert (verboseWebpackOutputOptions
            (getWebpackStatsConfig verbose (run_calls after σ1)).2
          = verboseWebpackOutputOptions initial_store) as Hbag'.
  { by rewrite getWebpackStatsConfig_verbose_bag, run_calls_verbose_bag. }
  destruct (getWebpackStatsConfig verbose (run_calls after σ1)) as [r σ2].
  cbn in *. subst r. cbn. apply Happ. by rewrite Hbag'.
Qed.

End StatsConfig.

(** ** The vendor-bundle gatekeeper *)

Section Gatekeeper.
Import TryBundleDll.

Context {Config : Type}.
Implicit Types (w : world Config) (o : TryBundleDllPluginOptions Config).

(** A failing [stat] rejects [checkManifestFile]; both [then] handlers are
    skipped and the error goes straight to [next]. *)
Lemma hook_trace_stat_error w o σ e :
  fs_stat Config w (manifestFile Config o) = StatError e →
  hook_trace Config w o σ
  = [FsStat (manifestFile Config o); Next (ErrorObject e)].
Proof.
  intros Hstat.
  unfold hook_trace, tryDll, catch_, then_, checkManifestFile.
  by rewrite Hstat.
Qed.

(** A regular file at the manifest path: no build, [next()] at once. *)
Lemma hook_trace_manifest_present w o σ :
  fs_stat Config w (manifestFile Config o) = StatOk true →
  hook_trace Config w o σ = [FsStat (manifestFile Config o); Next Undefined].
Proof.
  intros Hstat.
  unfold hook_trace, tryDll, catch_, then_, checkManifestFile.
  by rewrite Hstat.
Qed.

(** The bundler runs exactly when [stat] succeeds on something that is not a
    regular file. *)
Lemma bundler_invoked_iff w o σ :
  bundler_invoked Config (hook_trace Config w o σ)
  ↔ fs_stat Config w (manifestFile Config o) = StatOk false.
Proof.
  split.
  - intros [cfg Hin].
    destruct (fs_stat Config w (manifestFile Config o)) as [e|[]] eqn:Hstat; [| |done].
    + rewrite (hook_trace_stat_error _ _ _ _ Hstat) in Hin.
      repeat (apply elem_of_cons in Hin as [Hin|Hin]; [discriminate|]).
      by apply elem_of_nil in Hin.
    + rewrite (hook_trace_manifest_present _ _ _ Hstat) in Hin.
      repeat (apply elem_of_cons in Hin as [Hin|Hin]; [discriminate|]).
      by apply elem_of_nil in Hin.
  - intros Hstat. exists (webpackDllConfig Config o).
    unfold hook_trace, tryDll, catch_, then_, checkManifestFile, bundleDll, callback.
    rewrite Hstat. cbn.
    destruct (bundler Config w (webpackDllConfig Config o)) as [e|e|err stats]; cbn;
      [set_solver| |];
      destruct (getWebpackStatsConfig (debug Config o) σ) as [r σ']; cbn;
      [set_solver|].
    destruct (truthy err); cbn; [set_solver|].
    destruct (hasErrors stats); cbn; set_solver.
Qed.

(** When the build is reached and the compilation has errors, the promise
    is rejected without a reason and [next] receives [undefined]. *)
Lemma completion_build_with_errors w o σ err stats :
  fs_stat Config w (manifestFile Config o) = StatOk false →
  bundler Config w (webpackDllConfig Config o) = RunCallback err stats →
  truthy err = false →
  hasErrors stats = true →
  completion Config (hook_trace Config w o σ) = Some Undefined.
Proof.
  intros Hstat Hrun Herr Hhas.
  unfold hook_trace, tryDll, catch_, then_, checkManifestFile, bundleDll, callback.
  rewrite Hstat. cbn. rewrite Hrun.
  destruct (getWebpackStatsConfig (debug Config o) σ) as [r σ'].
  by rewrite Herr, Hhas.
Qed.

(** When the build is reached, the hook leaves the heap as the one call of
    [getWebpackStatsConfig(this.options.debug)] left it. *)
Lemma heap_after_build w o σ :
  fs_stat Config w (manifestFile Config o) = StatOk false →
  (∀ e, bundler Config w (webpackDllConfig Config o) ≠ WebpackThrows e) →
  heap_after_hook Config w o σ = (getWebpackStatsConfig (debug Config o) σ).2.
Proof.
  intros Hstat Hrun.
  unfold heap_after_hook, tryDll, catch_, then_, checkManifestFile, bundleDll, callback.
  rewrite Hstat. cbn.
  destruct (bundler Config w (webpackDllConfig Config o)) as [e|e|err stats]; cbn.
  - by destruct (Hrun e).
  - by destruct (getWebpackStatsConfig (debug Config o) σ) as [r σ'].
  - destruct (getWebpackStatsConfig (debug Config o) σ) as [r σ']; cbn.
    destruct (truthy err); cbn; [done|].
    by destruct (hasErrors stats).
Qed.

End Gatekeeper.

(** C9 — [getWebpackStatsConfig(true)] merges the verbose settings into the
    shared module-level object itself.  On a freshly loaded module a quiet
    call reads [children], [assets], [version] and [reasons] as [false]; once
    a verbose call has happened (whatever calls came before it), every later
    call, quiet ones included and whatever calls come in between, returns that
    same object with the four settings [true]; so it is after one run of the
    gatekeeper hook with [debug] set that reaches the build.  The result
    therefore depends on the call history and not only on the argument. *)
Theorem getWebpackStatsConfig_depends_on_history :
  (∀ k, k ∈ ["children"; "assets"; "version"; "reasons"] →
        TryBundleDll.call_result (Some false) TryBundleDll.initial_store !! k
        = Some false)
  ∧ (∀ (before after : list (option bool)) (verbose : option bool) k,
        k ∈ ["children"; "assets"; "version"; "reasons"] →
        let σ1 := (TryBundleDll.getWebpackStatsConfig (Some true)
                     (TryBundleDll.run_calls before TryBundleDll.initial_store)).2 in
        (TryBundleDll.getWebpackStatsConfig verbose
           (TryBundleDll.run_calls after σ1)).1
          = TryBundleDll.WebpackOutputOptionsRef
        ∧ TryBundleDll.call_result verbose (TryBundleDll.run_calls after σ1) !! k
          = Some true)
  ∧ (∀ (Config : Type) (w : TryBundleDll.world Config)
       (o : TryBundleDll.TryBundleDllPluginOptions Config)
       (after : list (option bool)) (verbose : option bool) k,
        k ∈ ["children"; "assets"; "version"; "reasons"] →
        TryBundleDll.fs_stat Config w (TryBundleDll.manifestFile Config o)
          = TryBundleDll.StatOk false →
        (∀ e, TryBundleDll.bundler Config w (TryBundleDll.webpackDllConfig Config o)
              ≠ TryBundleDll.WebpackThrows e) →
        TryBundleDll.debug Config o = Some true →
        TryBundleDll.call_result verbose
          (TryBundleDll.run_calls after
             (TryBundleDll.heap_after_hook Config w o TryBundleDll.initial_store))
          !! k = Some true)
  ∧ TryBundleDll.webpackOutputOptions
      (TryBundleDll.getWebpackStatsConfig (Some true) TryBundleDll.initial_store).2
      ≠ TryBundleDll.webpackOutputOptions TryBundleDll.initial_store.
Proof.
  assert (∀ k, k ∈ ["children"; "assets"; "version"; "reasons"] →
          TryBundleDll.verboseWebpackOutputOptions TryBundleDll.initial_store !! k
          = Some true) as Hverbose.
  { intros k Hk.
    repeat (apply elem_of_cons in Hk as [->|Hk]; [by vm_compute|]).
    by apply elem_of_nil in Hk. }
  split; [|split; [|split]].
  - intros k Hk. repeat (apply elem_of_cons in Hk as [->|Hk]; [by vm_compute|]).
    by apply elem_of_nil in Hk.
  - intros before after verbose k Hk σ1.
    split; [apply getWebpackStatsConfig_ref|].
    apply call_result_after_verbose; [|by apply Hverbose].
    subst σ1. by rewrite getWebpackStatsConfig_verbose_bag, run_calls_verbose_bag.
  - intros Config w o after verbose k Hk Hstat Hrun Hdebug.
    rewrite (heap_after_build _ _ _ Hstat Hrun), Hdebug.
    pose proof (call_result_after_verbose [] after verbose k) as Hcall.
    cbn in Hcall. apply Hcall; [done|by apply Hverbose].
  - intros Heq.
    assert (TryBundleDll.webpackOutputOptions
              (TryBundleDll.getWebpackStatsConfig (Some true)
                 TryBundleDll.initial_store).2
              !! "children" = Some true) as H1 by (by vm_compute).
    rewrite Heq in H1. by vm_compute in H1.
Qed.

(** C1 — the claim is that a missing manifest (or any failing [stat]) leads to
    the Build state.  In the code a missing manifest is a failing [stat]
    ([ENOENT]), which rejects [checkManifestFile]: the hook completes with
    that error and the bundler is never invoked. *)
Theorem missing_manifest_completes_hook_with_error :
  TryBundleDll.hook_trace unit TryBundleDll.missingManifestWorld
      TryBundleDll.exampleOptions TryBundleDll.initial_store
    = [TryBundleDll.FsStat "/proj/dist/vendor-manifest.json";
       TryBundleDll.Next (ErrorObject (SystemError "ENOENT"))]
  ∧ ¬ TryBundleDll.bundler_invoked unit
        (TryBundleDll.hook_trace unit TryBundleDll.missingManifestWorld
           TryBundleDll.exampleOptions TryBundleDll.initial_store)
  ∧ TryBundleDll.completion unit
        (TryBundleDll.hook_trace unit TryBundleDll.missingManifestWorld
           TryBundleDll.exampleOptions TryBundleDll.initial_store)
      = Some (ErrorObject (SystemError "ENOENT")).
Proof.
  split; [reflexivity|split; [|reflexivity]].
  rewrite bundler_invoked_iff. discriminate.
Qed.

(** C2 — the claim is that a vendor compilation with errors hands a non-null
    error to the hook's completion callback.  In the code the promise is
    rejected by [reject()] with no reason, so [next] is called with
    [undefined]: the bundler was invoked, its stats were printed, and the
    completion callback received no error. *)
Theorem build_errors_complete_hook_with_undefined :
  TryBundleDll.hook_trace unit TryBundleDll.failingBuildWorld
      TryBundleDll.exampleOptions TryBundleDll.initial_store
    = [TryBundleDll.FsStat "/proj/dist/vendor-manifest.json";
       TryBundleDll.InvokeBundler tt;
       TryBundleDll.ConsoleInfo "ERROR in ./vendor.ts";
       TryBundleDll.Next Undefined]
  ∧ TryBundleDll.completion unit
        (TryBundleDll.hook_trace unit TryBundleDll.failingBuildWorld
           TryBundleDll.exampleOptions TryBundleDll.initial_store)
      = Some Undefined
  ∧ ¬ non_null Undefined.
Proof.
  split; [reflexivity|split; [reflexivity|]].
  intros [_ H]. by apply H.
Qed.

(** ** The asset entry parser *)

Section AssetEntries.
Import ParseAssetEntry.

Implicit Types (h : Host) (baseDir p : string).

Lemma lastIndexOf_from_acc c s : ∀ i acc,
  (acc < i)%Z → (acc ≤ lastIndexOf_from c s i acc)%Z.
Proof.
  induction s as [|a s IH]; intros i acc Hlt; cbn; [lia|].
  destruct (Ascii.eqb a c).
  - specialize (IH (i + 1)%Z i). lia.
  - specialize (IH (i + 1)%Z acc). lia.
Qed.

Lemma lastIndexOf_from_found c s : ∀ n i acc,
  String.get n s = Some c → (acc < i)%Z →
  (i ≤ lastIndexOf_from c s i acc)%Z.
Proof.
  induction s as [|a s IH]; intros n i acc Hget Hlt; [by destruct n|].
  cbn. destruct n as [|n]; cbn in Hget.
  - injection Hget as ->. rewrite Ascii.eqb_refl.
    apply lastIndexOf_from_acc. lia.
  - destruct (Ascii.eqb a c).
    + specialize (IH n (i + 1)%Z i Hget). lia.
    + specialize (IH n (i + 1)%Z acc Hget). lia.
Qed.

(** A string that ends with the separator contains one. *)
Lemma ends_with_separator_found p :
  ends_with_separator p = true → (lastIndexOf "/" p >? -1)%Z = true.
Proof.
  unfold ends_with_separator, lastIndexOf. intros Hend.
  destruct (String.get (String.length p - 1) p) as [c|] eqn:Hget; [|done].
  apply Ascii.eqb_eq in Hend as ->.
  pose proof (lastIndexOf_from_found _ _ _ 0%Z (-1)%Z Hget). lia.
Qed.

(** What [prepareGlobFn] does to a relative path without wildcard that
    resolves to a directory: the last character goes as soon as the path
    contains a separator anywhere. *)
Lemma prepareGlobFn_relative_directory h baseDir p :
  p ≠ "" →
  lastIndexOf "*" p = (-1)%Z →
  isAbsolute h p = false →
  fs_lookup h (path_resolve h baseDir p) = Some Directory →
  prepareGlobFn h baseDir p
  = (if (lastIndexOf "/" p >? -1)%Z
     then substr p 0 (String.length p - 1) else p) +:+ "/**/*".
Proof.
  intros Hne Hstar Habs Hdir. unfold prepareGlobFn, existsSync, statSync_isDirectory.
  destruct (String.eqb_spec p "") as [->|_]; [done|].
  by rewrite Hstar, Habs, Hdir.
Qed.

(** Where the code and the design document agree: no separator at all, or
    a separator at the very end. *)
Lemma prepareGlobFn_agrees_with_document h baseDir p :
  p ≠ "" →
  lastIndexOf "*" p = (-1)%Z →
  isAbsolute h p = false →
  fs_lookup h (path_resolve h baseDir p) = Some Directory →
  lastIndexOf "/" p = (-1)%Z ∨ ends_with_separator p = true →
  prepareGlobFn h baseDir p = recursive_glob_of p.
Proof.
  intros Hne Hstar Habs Hdir Hsep.
  rewrite prepareGlobFn_relative_directory by done.
  unfold recursive_glob_of, strip_trailing_separator.
  destruct Hsep as [Hnone|Hend].
  - rewrite Hnone. cbn.
    destruct (ends_with_separator p) eqn:Hend; [|done].
    apply ends_with_separator_found in Hend. rewrite Hnone in Hend. done.
  - by rewrite Hend, (ends_with_separator_found _ Hend).
Qed.

Lemma length_append (s1 s2 : string) :
  String.length (s1 +:+ s2) = String.length s1 + String.length s2.
Proof.
  induction s1 as [|a s1 IH]; [done|].
  change (S (String.length (s1 +:+ s2)) = S (String.length s1 + String.length s2)).
  by rewrite IH.
Qed.

Lemma length_substr_prefix (s : string) : ∀ n,
  n <= String.length s → String.length (substr s 0 n) = n.
Proof.
  unfold substr. induction s as [|a s IH]; intros [|n] Hn; cbn in *; try done; [lia|].
  rewrite IH; [done|lia].
Qed.

(** Where they differ: a separator inside the path and none at its end.
    The code then removes a character of the last segment. *)
Lemma prepareGlobFn_differs_from_document h baseDir p :
  p ≠ "" →
  lastIndexOf "*" p = (-1)%Z →
  isAbsolute h p = false →
  fs_lookup h (path_resolve h baseDir p) = Some Directory →
  (lastIndexOf "/" p >? -1)%Z = true →
  ends_with_separator p = false →
  prepareGlobFn h baseDir p ≠ recursive_glob_of p.
Proof.
  intros Hne Hstar Habs Hdir Hsep Hend.
  rewrite prepareGlobFn_relative_directory by done.
  unfold recursive_glob_of, strip_trailing_separator. rewrite Hsep, Hend.
  intros Heq. apply (f_equal String.length) in Heq.
  rewrite !length_append, length_substr_prefix in Heq by lia.
  destruct p; [done|]. cbn in Heq. lia.
Qed.

(** An absolute path is never rewritten: the rewrite is guarded by
    [!path.isAbsolute(p)]. *)
Lemma prepareGlobFn_absolute h baseDir p :
  isAbsolute h p = true → prepareGlobFn h baseDir p = p.
Proof.
  intros Habs. unfold prepareGlobFn.
  destruct (String.eqb_spec p "") as [->|_]; [done|].
  rewrite Habs. cbn. by rewrite andb_false_r.
Qed.

Lemma parsedFrom_absolute h baseDir p :
  isAbsolute h p = true → parsedFrom h baseDir p = FromPath p.
Proof.
  intros Habs. unfold parsedFrom.
  rewrite prepareGlobFn_absolute by done.
  by rewrite String.eqb_refl, Habs.
Qed.

End AssetEntries.

(** C3, as claimed, fails: on a POSIX host the existing directory
    [/opt/shared], given as an absolute entry without wildcard, is not emitted
    as a glob descriptor. *)
Lemma absolute_directory_is_not_globbed :
  ¬ (∀ (h : ParseAssetEntry.Host) (baseDir p : string),
       ParseAssetEntry.isAbsolute h p = true →
       ParseAssetEntry.lastIndexOf "*" p = (-1)%Z →
       ParseAssetEntry.fs_lookup h (ParseAssetEntry.path_resolve h baseDir p)
         = Some ParseAssetEntry.Directory →
       ∃ e, ParseAssetEntry.parseAssetEntry h baseDir
              (ParseAssetEntry.EntriesArray [ParseAssetEntry.ItemString p])
            = Ok [e]
            ∧ ParseAssetEntry.is_glob_descriptor e = true
            ∧ ParseAssetEntry.context e = Some baseDir).
Proof.
  intros Hclaim.
  destruct (Hclaim ParseAssetEntry.exampleHost "/proj" "/opt/shared")
    as (e & Hparse & Hglob & _); [reflexivity..|].
  vm_compute in Hparse. injection Hparse as <-. discriminate.
Qed.

(** C3, amended — an absolute entry without wildcard that resolves to an
    existing directory is left as it is (the directory rewrite applies to
    relative paths only) and is emitted as a literal path with
    [context = baseDir]. *)
Theorem absolute_directory_is_literal_path
    (h : ParseAssetEntry.Host) (baseDir p : string) :
  ParseAssetEntry.isAbsolute h p = true →
  ParseAssetEntry.lastIndexOf "*" p = (-1)%Z →
  ParseAssetEntry.fs_lookup h (ParseAssetEntry.path_resolve h baseDir p)
    = Some ParseAssetEntry.Directory →
  ParseAssetEntry.prepareGlobFn h baseDir p = p
  ∧ ParseAssetEntry.parseAssetEntry h baseDir
      (ParseAssetEntry.EntriesArray [ParseAssetEntry.ItemString p])
    = Ok [{| ParseAssetEntry.from := ParseAssetEntry.FromPath p;
             ParseAssetEntry.context := Some baseDir;
             ParseAssetEntry.to := None |}].
Proof.
  intros Habs _ _. split; [by apply prepareGlobFn_absolute|].
  cbn. by rewrite parsedFrom_absolute.
Qed.

Lemma absolute_directory_is_literal_path_witness :
  ParseAssetEntry.prepareGlobFn ParseAssetEntry.exampleHost "/proj" "/opt/shared"
    = "/opt/shared"
  ∧ ParseAssetEntry.parseAssetEntry ParseAssetEntry.exampleHost "/proj"
      (ParseAssetEntry.EntriesArray [ParseAssetEntry.ItemString "/opt/shared"])
    = Ok [{| ParseAssetEntry.from := ParseAssetEntry.FromPath "/opt/shared";
             ParseAssetEntry.context := Some "/proj";
             ParseAssetEntry.to := None |}].
Proof.
  apply (absolute_directory_is_literal_path
           ParseAssetEntry.exampleHost "/proj" "/opt/shared");
    reflexivity.
Defined.

(** C4 — the claim is that a relative directory entry [p] becomes the glob
    "[p] without one trailing separator" followed by the recursive suffix.
    The code drops the last character of [p] whenever [p] contains a
    separator anywhere: the nested directory [src/assets] (relative, no
    wildcard, an existing directory under [/proj]) is turned into
    [src/asset/**/*], where the claim has [src/assets/**/*]. *)
Theorem nested_directory_loses_last_character :
  ParseAssetEntry.isAbsolute ParseAssetEntry.exampleHost "src/assets" = false
  ∧ ParseAssetEntry.lastIndexOf "*" "src/assets" = (-1)%Z
  ∧ ParseAssetEntry.fs_lookup ParseAssetEntry.exampleHost
      (ParseAssetEntry.path_resolve ParseAssetEntry.exampleHost "/proj" "src/assets")
    = Some ParseAssetEntry.Directory
  ∧ ParseAssetEntry.parseAssetEntry ParseAssetEntry.exampleHost "/proj"
      (ParseAssetEntry.EntriesArray [ParseAssetEntry.ItemString "src/assets"])
    = Ok [{| ParseAssetEntry.from :=
               ParseAssetEntry.FromGlob "src/asset/**/*" (Some true);
             ParseAssetEntry.context := Some "/proj";
             ParseAssetEntry.to := None |}]
  ∧ ParseAssetEntry.recursive_glob_of "src/assets" = "src/assets/**/*".
Proof. repeat split; reflexivity. Qed.

(** ** The project filter *)

Section ProjectFilter.
Import WebpackConfig.

Context {Detail : Type}.
Implicit Types (filterNames : list string) (configs : list (ProjectConfig Detail)).

(** [xs.filter(f).length === xs.length] says that [f] holds of every element. *)
Lemma filter_keeps_length_iff {A} (f : A → bool) (xs : list A) :
  (length (List.filter f xs) =? length xs)%nat = true ↔ Forall (λ x, f x = true) xs.
Proof.
  rewrite Nat.eqb_eq. induction xs as [|x xs IH]; cbn.
  - split; [constructor|done].
  - destruct (f x) eqn:Hfx; cbn.
    + split.
      * intros Hlen. constructor; [done|]. apply IH. lia.
      * intros Hall. inversion Hall; subst. f_equal. by apply IH.
    + split.
      * intros Hlen. pose proof (List.filter_length_le f xs). lia.
      * intros Hall. inversion Hall; subst. congruence.
Qed.

Lemma nonempty_length filterNames :
  filterNames ≠ [] → (length filterNames =? 0)%nat = false.
Proof. by destruct filterNames. Qed.

(** The shortcut fires exactly when every requested name is the reserved
    name of the other group. *)
Lemma shortcut_fires_iff (group : string) filterNames :
  filterNames ≠ [] →
  negb (length filterNames =? 0)%nat
  && (length (List.filter (λ configName, String.eqb configName group) filterNames)
        =? length filterNames)%nat = true
  ↔ Forall (λ n, n = group) filterNames.
Proof.
  intros Hne. rewrite (nonempty_length _ Hne). cbn.
  rewrite filter_keeps_length_iff.
  apply Forall_iff. intros n. apply String.eqb_eq.
Qed.

Lemma filteredConfigs_unfold k filterNames configs :
  filterNames ≠ [] →
  filteredConfigs k filterNames configs
  = if negb (length filterNames =? 0)%nat
       && (length (List.filter
                     (λ configName, String.eqb configName (reserved (opposite k)))
                     filterNames)
             =? length filterNames)%nat
    then []
    else List.filter
           (λ projectConfig,
              includes filterNames (reserved k) || named_in filterNames projectConfig)
           configs.
Proof.
  intros Hne.
  destruct k; cbn; unfold filteredLibConfigs, filteredAppConfigs;
    by destruct filterNames.
Qed.

End ProjectFilter.

(** C5, as claimed, fails: with the filter names [libs] and [web], the
    application named [web] stays in the app-kind result. *)
Lemma libs_with_app_name_keeps_the_app :
  ¬ (∀ (k : WebpackConfig.kind) (filterNames : list string)
       (configs : list (WebpackConfig.ProjectConfig unit)),
       WebpackConfig.reserved (WebpackConfig.opposite k) ∈ filterNames →
       WebpackConfig.filteredConfigs k filterNames configs = []).
Proof.
  intros Hclaim.
  specialize (Hclaim WebpackConfig.App
    (WebpackConfig.prepareFilterNames (WebpackConfig.FilterArray ["libs"; "web"]))
    [{| WebpackConfig.name := Some "web"; WebpackConfig.skip := false;
        WebpackConfig.detail := tt |}]).
  vm_compute in Hclaim.
  assert ("libs" ∈ ["libs"; "web"]) as Hin by (apply elem_of_cons; by left).
  specialize (Hclaim Hin). discriminate.
Qed.

(** C5, amended — when the requested names are not empty and consist
    exclusively of the reserved name of the opposite group ([libs] for the
    applications, [apps] for the libraries), the group is emptied, whatever
    its projects are called.  Otherwise the shortcut does not apply: the group
    keeps the projects whose name was requested (all of them when its own
    reserved name was requested). *)
Theorem exclusive_opposite_group_empties {Detail : Type}
    (k : WebpackConfig.kind) (filterNames : list string)
    (configs : list (WebpackConfig.ProjectConfig Detail)) :
  filterNames ≠ [] →
  (Forall (λ n, n = WebpackConfig.reserved (WebpackConfig.opposite k)) filterNames →
     WebpackConfig.filteredConfigs k filterNames configs = [])
  ∧ (¬ Forall (λ n, n = WebpackConfig.reserved (WebpackConfig.opposite k)) filterNames →
     WebpackConfig.filteredConfigs k filterNames configs
     = List.filter
         (λ projectConfig,
            includes filterNames (WebpackConfig.reserved k)
            || WebpackConfig.named_in filterNames projectConfig)
         configs).
Proof.
  intros Hne. rewrite filteredConfigs_unfold by done.
  pose proof (shortcut_fires_iff
                (WebpackConfig.reserved (WebpackConfig.opposite k)) _ Hne) as Hiff.
  split; intros Hall.
  - apply Hiff in Hall. by rewrite Hall.
  - destruct (negb _ && _) eqn:Hcond; [|done].
    exfalso. apply Hall, Hiff. done.
Qed.

Lemma exclusive_opposite_group_empties_witness :
  (Forall (λ n, n = "libs") ["libs"] →
     WebpackConfig.filteredConfigs WebpackConfig.App ["libs"]
       [{| WebpackConfig.name := Some "libs"; WebpackConfig.skip := false;
           WebpackConfig.detail := tt |};
        {| WebpackConfig.name := Some "web"; WebpackConfig.skip := false;
           WebpackConfig.detail := tt |}] = [])
  ∧ (¬ Forall (λ n, n = "libs") ["libs"] →
     WebpackConfig.filteredConfigs WebpackConfig.App ["libs"]
       [{| WebpackConfig.name := Some "libs"; WebpackConfig.skip := false;
           WebpackConfig.detail := tt |};
        {| WebpackConfig.name := Some "web"; WebpackConfig.skip := false;
           WebpackConfig.detail := tt |}]
     = List.filter
         (λ projectConfig,
            includes ["libs"] "apps"
            || WebpackConfig.named_in ["libs"] projectConfig)
         [{| WebpackConfig.name := Some "libs"; WebpackConfig.skip := false;
             WebpackConfig.detail := tt |};
          {| WebpackConfig.name := Some "web"; WebpackConfig.skip := false;
             WebpackConfig.detail := tt |}]).
Proof.
  apply (exclusive_opposite_group_empties WebpackConfig.App ["libs"]).
  discriminate.
Defined.

(** ** The result list is never empty *)

(** C6 — [getWebpackConfig] never returns an empty list: whatever the
    collaborators do, a returned list has an element, and when the preparation
    succeeds and the two project loops finish with nothing collected (every
    project filtered out, skipped, or built to no configuration) the function
    throws [InvalidConfigError] instead. *)
Theorem getWebpackConfig_never_returns_empty {Detail Configuration : Type}
    (c : WebpackConfig.Collaborators Detail Configuration)
    (configPath : string) (env : option WebpackConfig.Environment)
    (argv : option WebpackConfig.Argv) :
  (∀ webpackConfigs,
     WebpackConfig.getWebpackConfig c configPath env argv = Ok webpackConfigs →
     webpackConfigs ≠ [])
  ∧ (∀ p,
       WebpackConfig.prepare c configPath env argv = Ok p →
       WebpackConfig.collectConfigs c p = Ok [] →
       WebpackConfig.getWebpackConfig c configPath env argv
       = Throw (InvalidConfigError "No app or lib project is available.")).
Proof.
  unfold WebpackConfig.getWebpackConfig. split.
  - intros webpackConfigs.
    destruct (WebpackConfig.prepare c configPath env argv) as [p|e]; cbn; [|done].
    destruct (WebpackConfig.collectConfigs c p) as [[|b l]|e]; cbn; [done| |done].
    intros [= <-]. done.
  - intros p Hp Hcollect. rewrite Hp. cbn. by rewrite Hcollect.
Qed.

Lemma getWebpackConfig_never_returns_empty_witness :
  WebpackConfig.getWebpackConfig WebpackConfig.exampleCollaborators
    "/proj/angular-build.json" None (Some WebpackConfig.exampleArgv)
  = Throw (InvalidConfigError "No app or lib project is available.").
Proof.
  apply (proj2 (getWebpackConfig_never_returns_empty
                  WebpackConfig.exampleCollaborators
                  "/proj/angular-build.json" None (Some WebpackConfig.exampleArgv))
           {| WebpackConfig.projectRoot := "/proj";
              WebpackConfig.fromCli := true;
              WebpackConfig.filterNames := ["apps"];
              WebpackConfig.cleanOutDirs := false;
              WebpackConfig.environment :=
                {| WebpackConfig.dll := false; WebpackConfig.options := None |};
              WebpackConfig.angularBuildConfig := WebpackConfig.exampleBuildConfig;
              WebpackConfig.libConfigs :=
                [{| WebpackConfig.name := Some "core"; WebpackConfig.skip := false;
                    WebpackConfig.detail := tt |}];
              WebpackConfig.appConfigs :=
                [{| WebpackConfig.name := Some "web"; WebpackConfig.skip := true;
                    WebpackConfig.detail := tt |}] |});
    reflexivity.
Defined.

(** ** The vendor-bundle-only fragment and the merger *)

Section DllEntries.
Import Webpack Dll.

Implicit Types (xs ys : list string) (x y : string).

Lemma elem_of_pushUnique xs x y :
  y ∈ pushUnique xs x ↔ y ∈ xs ∨ y = x.
Proof.
  unfold pushUnique, includes. case_bool_decide as Hin.
  - split; [by left|]. intros [?| ->]; done.
  - rewrite elem_of_app, list_elem_of_singleton. done.
Qed.

Lemma NoDup_pushUnique xs x : NoDup xs → NoDup (pushUnique xs x).
Proof.
  intros Hnd. unfold pushUnique, includes. case_bool_decide as Hin; [done|].
  apply NoDup_app. split; [done|]. split.
  - intros y Hy ->%list_elem_of_singleton. done.
  - apply NoDup_singleton.
Qed.

Lemma NoDup_foldl_pushUnique ys : ∀ xs,
  NoDup xs → NoDup (foldl pushUnique xs ys).
Proof.
  induction ys as [|y ys IH]; intros xs Hnd; [done|].
  cbn. by apply IH, NoDup_pushUnique.
Qed.

Lemma elem_of_foldl_pushUnique ys : ∀ xs x,
  x ∈ foldl pushUnique xs ys ↔ x ∈ xs ∨ x ∈ ys.
Proof.
  induction ys as [|y ys IH]; intros xs x; cbn.
  - rewrite elem_of_nil. tauto.
  - rewrite IH, elem_of_pushUnique, elem_of_cons. tauto.
Qed.

(** The first loop pushes into both arrays; each evolves on its own. *)
Lemma foldl_pushUnique_pair ys : ∀ xs1 xs2,
  foldl (λ '(tsEntries, entries) tsEntry,
           (pushUnique tsEntries tsEntry, pushUnique entries tsEntry))
        (xs1, xs2) ys
  = (foldl pushUnique xs1 ys, foldl pushUnique xs2 ys).
Proof.
  induction ys as [|y ys IH]; intros xs1 xs2; [done|]. cbn. apply IH.
Qed.

Lemma collectEntries_unfold (r : DllParsedResult) :
  collectEntries r
  = (foldl pushUnique [] (tsEntries r),
     foldl pushUnique
       (foldl pushUnique (foldl pushUnique [] (tsEntries r)) (scriptEntries r))
       (styleEntries r)).
Proof. unfold collectEntries. by rewrite foldl_pushUnique_pair. Qed.

Lemma collectEntries_NoDup (r : DllParsedResult) :
  NoDup (collectEntries r).1 ∧ NoDup (collectEntries r).2.
Proof.
  rewrite collectEntries_unfold. cbn. split.
  - apply NoDup_foldl_pushUnique, NoDup_nil_2.
  - do 3 apply NoDup_foldl_pushUnique. apply NoDup_nil_2.
Qed.

Lemma collectEntries_elem_of (r : DllParsedResult) x :
  (x ∈ (collectEntries r).1 ↔ x ∈ tsEntries r)
  ∧ (x ∈ (collectEntries r).2
     ↔ x ∈ tsEntries r ∨ x ∈ scriptEntries r ∨ x ∈ styleEntries r).
Proof.
  rewrite collectEntries_unfold. cbn.
  rewrite !elem_of_foldl_pushUnique, elem_of_nil. tauto.
Qed.

End DllEntries.

(** C10 — whenever the vendor-bundle-only fragment is produced, its entry
    object has the single vendor chunk, whose array is free of duplicates and
    holds exactly the ts, script and style entries of the parsed dll result;
    [tsEntries], which the ts rule includes, is free of duplicates as well and
    holds exactly the parsed ts entries. *)
Theorem vendor_entries_have_no_duplicates
    (workspaceRoot : string) (path_resolve : list string → string)
    (outputHashFormat_bundle : string)
    (resolveLoaderPath : string → result string)
    (getAngularFixPlugins : Dll.AngularBuildContext → result (list Webpack.plugin))
    (angularBuildContext : Dll.AngularBuildContext) (cfg : Webpack.Configuration) :
  Dll.getAppDllWebpackConfigPartial workspaceRoot path_resolve
    outputHashFormat_bundle resolveLoaderPath getAngularFixPlugins
    angularBuildContext = Ok cfg →
  ∃ dllResult tsEntries entries,
    Dll._dllParsedResult (Dll.projectConfig angularBuildContext) = Some dllResult
    ∧ Dll.collectEntries dllResult = (tsEntries, entries)
    ∧ Webpack.entry cfg
      = Some (Webpack.EntryObject
                [(or_else (Dll.vendorChunkName (Dll.projectConfig angularBuildContext))
                    "vendor", entries)])
    ∧ NoDup entries
    ∧ NoDup tsEntries
    ∧ (∀ x, x ∈ entries ↔ x ∈ Dll.tsEntries dllResult
                           ∨ x ∈ Dll.scriptEntries dllResult
                           ∨ x ∈ Dll.styleEntries dllResult)
    ∧ (∀ x, x ∈ tsEntries ↔ x ∈ Dll.tsEntries dllResult)
    ∧ (∀ rules rule, Webpack.module_rules cfg = Some rules → rule ∈ rules →
                     Webpack.include rule = Some tsEntries).
Proof.
  unfold Dll.getAppDllWebpackConfigPartial. intros Hcfg.
  destruct (negb (truthy_str _)); [done|].
  apply bind_Ok_inv in Hcfg as ([tsEntries entries] & Hcollect & Hcfg).
  destruct (Dll.dlls _); [|by injection Hcollect as <- <-].
  destruct (Dll._dllParsedResult _) as [dllResult|]; [|done].
  injection Hcollect as Hcollect.
  pose proof (collectEntries_NoDup dllResult) as [Hts Hes].
  pose proof (collectEntries_elem_of dllResult) as Hin.
  rewrite Hcollect in Hts, Hes, Hin. cbn [fst snd] in Hts, Hes, Hin.
  exists dllResult, tsEntries, entries.
  destruct (length entries =? 0)%nat; [done|].
  apply bind_Ok_inv in Hcfg as (rules & Hrules & Hcfg).
  apply bind_Ok_inv in Hcfg as (fixPlugins & _ & Hcfg).
  injection Hcfg as <-. cbn [Webpack.entry Webpack.module_rules].
  repeat split; try done; try apply Hin.
  intros rules' rule [= <-] Hrule.
  destruct (0 <? length tsEntries)%nat.
  - apply bind_Ok_inv in Hrules as (tsLoader & _ & Hrules).
    injection Hrules as <-.
    by apply list_elem_of_singleton in Hrule as ->.
  - injection Hrules as <-. by apply elem_of_nil in Hrule.
Qed.

Lemma vendor_entries_have_no_duplicates_witness :
  ∃ cfg entries,
    Dll.getAppDllWebpackConfigPartial "/proj" Dll.joinSegments "[chunkhash]"
      Ok (λ _, Ok []) Dll.exampleDllContext = Ok cfg
    ∧ Webpack.entry cfg = Some (Webpack.EntryObject [("vendor", entries)])
    ∧ NoDup entries
    ∧ (∀ x, x ∈ entries
            ↔ x ∈ ["src/polyfills.ts"; "src/polyfills.ts"]
              ∨ x ∈ ["node_modules/jquery/dist/jquery.js"; "src/polyfills.ts"]
              ∨ x ∈ ["node_modules/bootstrap/dist/css/bootstrap.css"]).
Proof.
  eexists.
  destruct (vendor_entries_have_no_duplicates "/proj" Dll.joinSegments "[chunkhash]"
              Ok (λ _, Ok []) Dll.exampleDllContext _ eq_refl)
    as (dllResult & tsEntries & entries & Hres & _ & Hentry & Hnd & _ & Hin & _).
  injection Hres as <-.
  exists entries. repeat split; [exact Hentry|exact Hnd|apply Hin|apply Hin].
Defined.

(** C7 — whenever [getAppDllWebpackConfig] merges the fragments of a vendor
    bundle, a merged result without entry points ([entry] absent, or an
    object with zero keys) gets the no-op function returning an empty entry
    map as its [entry]; a merged result that has entry points is returned as
    it is; in no case does the returned configuration lack entry points. *)
Theorem merged_config_never_lacks_entry_points
    (workspaceRoot : string) (path_resolve : list string → string)
    (outputHashFormat_bundle : string)
    (resolveLoaderPath : string → result string)
    (getAngularFixPlugins : Dll.AngularBuildContext → result (list Webpack.plugin))
    (getCustomWebpackConfig :
       string → Dll.AngularBuildContext → result (option Webpack.Configuration))
    (getAppCommonWebpackConfigPartial getAppStylesWebpackConfigPartial :
       Dll.AngularBuildContext → result Webpack.Configuration)
    (webpackMerge : list Webpack.Configuration → Webpack.Configuration)
    (angularBuildContext : Dll.AngularBuildContext) (cfg : Webpack.Configuration) :
  Dll._isDll (Dll.projectConfig angularBuildContext) = true →
  Dll._projectType (Dll.projectConfig angularBuildContext) = Some "app" →
  Dll.getAppDllWebpackConfig workspaceRoot path_resolve outputHashFormat_bundle
    resolveLoaderPath getAngularFixPlugins getCustomWebpackConfig
    getAppCommonWebpackConfigPartial getAppStylesWebpackConfigPartial
    webpackMerge angularBuildContext = Ok cfg →
  ∃ configs,
    Dll.fragments workspaceRoot path_resolve outputHashFormat_bundle
      resolveLoaderPath getAngularFixPlugins getCustomWebpackConfig
      getAppCommonWebpackConfigPartial getAppStylesWebpackConfigPartial
      angularBuildContext = Ok configs
    ∧ (Webpack.no_entry_points (webpackMerge configs) →
       cfg = Webpack.set_entry (Webpack.EntryFunction []) (webpackMerge configs))
    ∧ (Webpack.entry_falsy (Webpack.entry (webpackMerge configs))
       || Webpack.entry_object_without_keys (Webpack.entry (webpackMerge configs))
       = false →
       cfg = webpackMerge configs)
    ∧ ¬ Webpack.no_entry_points cfg.
Proof.
  intros HisDll Htype. unfold Dll.getAppDllWebpackConfig.
  rewrite HisDll, Htype. cbn [negb orb]. rewrite bool_decide_eq_true_2 by done.
  cbn [negb]. intros Hcfg.
  apply bind_Ok_inv in Hcfg as (configs & Hfragments & Hcfg).
  exists configs. split; [done|].
  destruct (Webpack.entry_falsy _ || Webpack.entry_object_without_keys _) eqn:Hcond;
    injection Hcfg as <-.
  - split; [done|split; [done|]].
    intros [Hnone|Hempty]; cbn in *; discriminate.
  - apply orb_false_iff in Hcond as [Hfalsy Hkeys].
    assert (¬ Webpack.no_entry_points (webpackMerge configs)) as Hhas.
    { intros [Hnone|Hempty].
      - by rewrite Hnone in Hfalsy.
      - by rewrite Hempty in Hkeys. }
    split; [by intros ?|split; done].
Qed.

Lemma merged_config_never_lacks_entry_points_witness :
  ∃ cfg,
    Dll.getAppDllWebpackConfig "/proj" Dll.joinSegments "[chunkhash]"
      Ok (λ _, Ok []) (λ _ _, Ok None)
      (λ _, Ok Webpack.emptyConfiguration) (λ _, Ok Webpack.emptyConfiguration)
      Dll.lastFragment Dll.exampleDllContext = Ok cfg
    ∧ Webpack.entry cfg = Some (Webpack.EntryFunction [])
    ∧ ¬ Webpack.no_entry_points cfg.
Proof.
  eexists.
  destruct (merged_config_never_lacks_entry_points "/proj" Dll.joinSegments
              "[chunkhash]" Ok (λ _, Ok []) (λ _ _, Ok None)
              (λ _, Ok Webpack.emptyConfiguration)
              (λ _, Ok Webpack.emptyConfiguration)
              Dll.lastFragment Dll.exampleDllContext _ eq_refl eq_refl eq_refl)
    as (configs & Hfragments & Hsubst & _ & Hhas).
  injection Hfragments as <-.
  split; [reflexivity|split; [|exact Hhas]].
  rewrite Hsubst; [reflexivity|]. by left.
Defined.

(** ** The styles fragment *)

Section StyleEntries.
Import Styles.

Implicit Types (entryPoints : Webpack.entry_object) (style : StyleParsedEntry).

(** "[entryPoints[k]] contains [p]". *)
Local Abbreviation has_path entryPoints k p :=
  (∃ paths : list string, (k, paths) ∈ entryPoints ∧ p ∈ paths).

Lemma addStyleEntry_adds entryPoints style :
  has_path (addStyleEntry entryPoints style) (entry style) (path style).
Proof.
  induction entryPoints as [|[k paths] rest IH]; cbn.
  - exists [path style]. split; apply list_elem_of_singleton; done.
  - destruct (String.eqb_spec k (entry style)) as [->|Hne].
    + exists (paths ++ [path style])%list. split; [by left|].
      apply elem_of_app. right. by apply list_elem_of_singleton.
    + destruct IH as (ps & Hin & Hp). exists ps. split; [by right|done].
Qed.

Lemma addStyleEntry_keeps entryPoints style k p :
  has_path entryPoints k p → has_path (addStyleEntry entryPoints style) k p.
Proof.
  induction entryPoints as [|[k' paths] rest IH]; intros (ps & Hin & Hp).
  - by apply elem_of_nil in Hin.
  - cbn. apply elem_of_cons in Hin as [[= <- <-]|Hin].
    + destruct (String.eqb k (entry style)).
      * exists (ps ++ [path style])%list. split; [by left|].
        apply elem_of_app. by left.
      * exists ps. split; [by left|done].
    + destruct (String.eqb k' (entry style)).
      * exists ps. split; [by right|done].
      * destruct IH as (ps' & Hin' & Hp'); [by exists ps|].
        exists ps'. split; [by right|done].
Qed.

Lemma foldl_addStyleEntry_keeps parsed : ∀ entryPoints k p,
  has_path entryPoints k p →
  has_path (foldl addStyleEntry entryPoints parsed) k p.
Proof.
  induction parsed as [|style parsed IH]; intros entryPoints k p Hhas; [done|].
  cbn. by apply IH, addStyleEntry_keeps.
Qed.

(** Every parsed style sits under its own chunk after the loop. *)
Lemma foldl_addStyleEntry_adds parsed : ∀ entryPoints style,
  style ∈ parsed →
  has_path (foldl addStyleEntry entryPoints parsed) (entry style) (path style).
Proof.
  induction parsed as [|s parsed IH]; intros entryPoints style Hin.
  - by apply elem_of_nil in Hin.
  - cbn. apply elem_of_cons in Hin as [->|Hin].
    + apply foldl_addStyleEntry_keeps, addStyleEntry_adds.
    + by apply IH.
Qed.

Lemma mainWebBuild_true {StyleEntry} (projectConfig : ProjectConfig StyleEntry)
    (env : Environment) :
  mainWebBuild projectConfig env = true
  ↔ projectType projectConfig = Some "app"
    ∧ platformTarget projectConfig = Some "web"
    ∧ dll env = false ∧ test env = false.
Proof.
  unfold mainWebBuild.
  rewrite !andb_true_iff, !bool_decide_eq_true, !negb_true_iff. tauto.
Qed.

End StyleEntries.

(** C8 — whenever the styles fragment is produced: it has entry points or
    plugins only if the project type is [app], the platform target is [web]
    and neither the dll flag nor the test flag of the environment is set; in a
    dll or test pass it has no entry points and no plugins; and in the main web
    build every parsed global style is put under its own entry point, the
    plugin that suppresses the script artifacts of those entry points being
    added (together with the extracting plugin) when css is extracted. *)
Theorem style_entries_only_in_main_web_build {StyleEntry : Type}
    (path_resolve : string → string → string)
    (parseStyleEntry :
       list StyleEntry → string → string → result (list Styles.StyleParsedEntry))
    (webpackConfigOptions : Styles.WebpackConfigOptions StyleEntry)
    (cfg : Webpack.Configuration) :
  Styles.getStylesConfigPartial path_resolve parseStyleEntry webpackConfigOptions
    = Ok cfg →
  let projectConfig := Styles.projectConfig webpackConfigOptions in
  let environment := Styles.activeEnvironment webpackConfigOptions in
  ∃ parsed entryPoints stylePlugins,
    Styles.parseGlobalStyles path_resolve parseStyleEntry webpackConfigOptions
      = Ok parsed
    ∧ Webpack.entry cfg = Some (Webpack.EntryObject entryPoints)
    ∧ Webpack.plugins cfg = Some stylePlugins
    ∧ (entryPoints ≠ [] ∨ stylePlugins ≠ [] →
         Styles.projectType projectConfig = Some "app"
         ∧ Styles.platformTarget projectConfig = Some "web"
         ∧ Styles.dll environment = false
         ∧ Styles.test environment = false)
    ∧ (Styles.dll environment = true ∨ Styles.test environment = true →
         entryPoints = [] ∧ stylePlugins = [])
    ∧ (Styles.projectType projectConfig = Some "app" →
       Styles.platformTarget projectConfig = Some "web" →
       Styles.dll environment = false →
       Styles.test environment = false →
         entryPoints = foldl Styles.addStyleEntry [] parsed
         ∧ (∀ style, style ∈ parsed →
              ∃ paths, (Styles.entry style, paths) ∈ entryPoints
                       ∧ Styles.path style ∈ paths)
         ∧ stylePlugins
           = if Styles.extractCss projectConfig
             then [Webpack.ExtractTextPlugin
                     ("[name]"
                      +:+ (if Styles.appendOutputHash projectConfig
                           then ".[contenthash:20]" else "")
                      +:+ ".css");
                   Webpack.SuppressEntryChunksWebpackPlugin
                     (fst <$> entryPoints) "\.js(\.map)?$"]
             else []).
Proof.
  intros Hcfg projectConfig environment.
  unfold Styles.getStylesConfigPartial in Hcfg.
  apply bind_Ok_inv in Hcfg as (parsed & Hparsed & Hcfg).
  exists parsed.
  fold projectConfig environment in Hcfg.
  destruct (Styles.mainWebBuild projectConfig environment) eqn:Hmain.
  - pose proof (proj1 (mainWebBuild_true _ _) Hmain) as Hflags.
    assert ((if (0 <? length parsed)%nat
             then foldl Styles.addStyleEntry [] parsed else [])
            = foldl Styles.addStyleEntry [] parsed) as Hentries
      by (by destruct parsed).
    destruct (0 <? length parsed)%nat;
      injection Hcfg as <-; cbn [Webpack.entry Webpack.plugins];
      eexists _, _; (split; [done|split; [reflexivity|split; [reflexivity|]]]).
    + split; [done|]. split.
      { intros [Hdll|Htest]; destruct Hflags as (_ & _ & ? & ?); congruence. }
      intros _ _ _ _. split; [done|]. split; [|done].
      intros style Hin. by apply foldl_addStyleEntry_adds.
    + split; [done|]. split.
      { intros [Hdll|Htest]; destruct Hflags as (_ & _ & ? & ?); congruence. }
      intros _ _ _ _. split; [done|]. split; [|done].
      intros style Hin. rewrite Hentries. by apply foldl_addStyleEntry_adds.
  - injection Hcfg as <-. cbn [Webpack.entry Webpack.plugins].
    exists [], []. split; [done|]. split; [done|]. split; [done|].
    split; [by intros [?|?]|]. split; [done|].
    intros Htype Htarget Hdll Htest.
    assert (Styles.mainWebBuild projectConfig environment = true) as Hmain'
      by (by apply mainWebBuild_true).
    congruence.
Qed.

Lemma style_entries_only_in_main_web_build_witness :
  ∃ cfg,
    Styles.getStylesConfigPartial Styles.examplePathResolve
      Styles.exampleParseStyleEntry
      (Styles.exampleStylesOptions {| Styles.dll := false; Styles.test := false |})
      = Ok cfg
    ∧ Webpack.entry cfg
      = Some (Webpack.EntryObject
                [("styles", ["/proj/src/styles.css"; "/proj/src/theme.css"])])
    ∧ Webpack.plugins cfg
      = Some [Webpack.ExtractTextPlugin "[name].css";
              Webpack.SuppressEntryChunksWebpackPlugin ["styles"] "\.js(\.map)?$"].
Proof.
  eexists.
  destruct (style_entries_only_in_main_web_build Styles.examplePathResolve
              Styles.exampleParseStyleEntry
              (Styles.exampleStylesOptions
                 {| Styles.dll := false; Styles.test := false |})
              _ eq_refl)
    as (parsed & entryPoints & stylePlugins
        & Hparsed & Hentry & Hplugins & _ & _ & Hmain).
  injection Hparsed as <-.
  destruct Hmain as (-> & _ & ->); [reflexivity..|].
  split; [reflexivity|]. split; [exact Hentry|exact Hplugins].
Defined.

(** ** Scenarios of the design document, run on the models *)

(** Manifest present: the hook completes without invoking the bundler and
    without error. *)
Example manifest_present_skips_the_build :
  TryBundleDll.hook_trace unit
    {| TryBundleDll.fs_stat := λ _, TryBundleDll.StatOk true;
       TryBundleDll.bundler := λ _, TryBundleDll.WebpackThrows (Error "not reached") |}
    TryBundleDll.exampleOptions TryBundleDll.initial_store
  = [TryBundleDll.FsStat "/proj/dist/vendor-manifest.json";
     TryBundleDll.Next Undefined].
Proof. reflexivity. Qed.

(** A build that succeeds: the stats are printed and the hook completes
    without error. *)
Example successful_build_completes_the_hook :
  TryBundleDll.hook_trace unit
    {| TryBundleDll.fs_stat := λ _, TryBundleDll.StatOk false;
       TryBundleDll.bundler := λ _,
         TryBundleDll.RunCallback Null
           {| TryBundleDll.hasErrors := false;
              TryBundleDll.toString := λ _, "vendor.js  1.2 MB" |} |}
    TryBundleDll.exampleOptions TryBundleDll.initial_store
  = [TryBundleDll.FsStat "/proj/dist/vendor-manifest.json";
     TryBundleDll.InvokeBundler tt;
     TryBundleDll.ConsoleInfo "vendor.js  1.2 MB";
     TryBundleDll.Next Undefined].
Proof. reflexivity. Qed.

(** Directory-shaped relative entries without an inner separator, a file, a
    wildcard and an absolute file. *)
Example parseAssetEntry_samples :
  ParseAssetEntry.parseAssetEntry ParseAssetEntry.exampleHost "/proj"
    (ParseAssetEntry.EntriesArray
       [ParseAssetEntry.ItemString "assets";
        ParseAssetEntry.ItemString "assets/";
        ParseAssetEntry.ItemString "favicon.ico";
        ParseAssetEntry.ItemString "src/*.png";
        ParseAssetEntry.ItemString "/proj/favicon.ico"])
  = Ok [{| ParseAssetEntry.from := ParseAssetEntry.FromGlob "assets/**/*" (Some true);
           ParseAssetEntry.context := Some "/proj"; ParseAssetEntry.to := None |};
        {| ParseAssetEntry.from := ParseAssetEntry.FromGlob "assets/**/*" (Some true);
           ParseAssetEntry.context := Some "/proj"; ParseAssetEntry.to := None |};
        {| ParseAssetEntry.from := ParseAssetEntry.FromGlob "favicon.ico" (Some true);
           ParseAssetEntry.context := Some "/proj"; ParseAssetEntry.to := None |};
        {| ParseAssetEntry.from := ParseAssetEntry.FromGlob "src/*.png" (Some true);
           ParseAssetEntry.context := Some "/proj"; ParseAssetEntry.to := None |};
        {| ParseAssetEntry.from := ParseAssetEntry.FromPath "/proj/favicon.ico";
           ParseAssetEntry.context := Some "/proj"; ParseAssetEntry.to := None |}].
Proof. reflexivity. Qed.

(** An entry that is neither a string nor an object with a [from] aborts the
    whole call. *)
Example parseAssetEntry_invalid_entry :
  ParseAssetEntry.parseAssetEntry ParseAssetEntry.exampleHost "/proj"
    (ParseAssetEntry.EntriesArray
       [ParseAssetEntry.ItemString "assets"; ParseAssetEntry.ItemOther])
  = Throw (Error "Invalid 'assets' value in appConfig.").
Proof. reflexivity. Qed.

(** One library (not skipped) and one application (skipped), no filter:
    exactly one configuration, for the library. *)
Example one_library_one_skipped_application :
  WebpackConfig.getWebpackConfig WebpackConfig.exampleCollaborators
    "/proj/angular-build.json" None None
  = Ok [{| WebpackConfig.wpConfig := "core";
           WebpackConfig._projectConfig := None |}].
Proof. reflexivity. Qed.

(** The filter names of [--filter " libs ", "libs", "web"]. *)
Example prepareFilterNames_trims_and_dedups :
  WebpackConfig.prepareFilterNames
    (WebpackConfig.FilterArray [" libs "; "libs"; ""; "web"])
  = ["libs"; "web"].
Proof. reflexivity. Qed.

(** In a dll pass the styles fragment has neither entry points nor plugins. *)
Example styles_fragment_in_dll_pass :
  (λ cfg, (Webpack.entry cfg, Webpack.plugins cfg))
    <$> Styles.getStylesConfigPartial Styles.examplePathResolve
          Styles.exampleParseStyleEntry
          (Styles.exampleStylesOptions {| Styles.dll := true; Styles.test := false |})
  = Ok (Some (Webpack.EntryObject []), Some []).
Proof. reflexivity. Qed.

(** * Further properties of the sources *)

(** ** The hook, run by run *)

(** Membership in a short explicit list, by cases. *)
Ltac elem_cases H :=
  repeat (apply elem_of_cons in H as [H|H]; [try discriminate H|]);
  try (by apply elem_of_nil in H).

Section HookRuns.
Import TryBundleDll.

Context {Config : Type}.
Implicit Types (w : world Config) (o : TryBundleDllPluginOptions Config).

(** The events of a run, read off the outcomes of [stat] and of the bundler. *)
Lemma hook_trace_eq w o σ :
  hook_trace Config w o σ
  = FsStat (manifestFile Config o)
    :: match fs_stat Config w (manifestFile Config o) with
       | StatError e => [Next (ErrorObject e)]
       | StatOk true => [Next Undefined]
       | StatOk false =>
           InvokeBundler (webpackDllConfig Config o)
           :: match bundler Config w (webpackDllConfig Config o) with
              | WebpackThrows e | RunThrows e => [Next (ErrorObject e)]
              | RunCallback err stats =>
                  if truthy err then [Next err]
                  else [ConsoleInfo
                          (toString stats (call_result (debug Config o) σ));
                        Next Undefined]
              end
       end.
Proof.
  unfold hook_trace, tryDll, catch_, then_, checkManifestFile, bundleDll, callback,
    call_result.
  destruct (fs_stat Config w (manifestFile Config o)) as [e|[]]; cbn; [done..|].
  destruct (bundler Config w (webpackDllConfig Config o)) as [e|e|err stats]; cbn;
    [done| |]; destruct (getWebpackStatsConfig (debug Config o) σ) as [r σ']; cbn;
    [done|].
  destruct (truthy err); cbn; [done|]. by destruct (hasErrors stats).
Qed.

End HookRuns.


(** X2 — the bundler is invoked at most once per run, with the configuration
    of the plugin options and nothing else, and exactly when [stat] succeeds on
    something that is not a regular file. *)
Theorem bundler_invocations_of_a_run {Config : Type}
    (w : TryBundleDll.world Config)
    (o : TryBundleDll.TryBundleDllPluginOptions Config)
    (σ : TryBundleDll.store) :
  TryBundleDll.invocations Config (TryBundleDll.hook_trace Config w o σ)
  = match TryBundleDll.fs_stat Config w (TryBundleDll.manifestFile Config o) with
    | TryBundleDll.StatOk false => [TryBundleDll.webpackDllConfig Config o]
    | _ => []
    end.
Proof.
  rewrite hook_trace_eq.
  destruct (TryBundleDll.fs_stat Config w _) as [e|[]]; [done..|].
  destruct (TryBundleDll.bundler Config w _) as [e|e|err stats]; [done..|].
  by destruct (truthy err).
Qed.


(** X4 — the stats are printed at most once, and exactly when the run called
    back without an error; the text is rendered with the option bag
    [getWebpackStatsConfig(this.options.debug)] hands out at that moment. *)
Theorem stats_printed_when_run_calls_back {Config : Type}
    (w : TryBundleDll.world Config)
    (o : TryBundleDll.TryBundleDllPluginOptions Config)
    (σ : TryBundleDll.store) :
  TryBundleDll.printed Config (TryBundleDll.hook_trace Config w o σ)
  = match TryBundleDll.fs_stat Config w (TryBundleDll.manifestFile Config o),
          TryBundleDll.bundler Config w (TryBundleDll.webpackDllConfig Config o) with
    | TryBundleDll.StatOk false, TryBundleDll.RunCallback err stats =>
        if truthy err then []
        else [TryBundleDll.toString stats
                (TryBundleDll.call_result (TryBundleDll.debug Config o) σ)]
    | _, _ => []
    end.
Proof.
  rewrite hook_trace_eq.
  destruct (TryBundleDll.fs_stat Config w _) as [e|[]]; [done..|].
  destruct (TryBundleDll.bundler Config w _) as [e|e|err stats]; [done..|].
  by destruct (truthy err).
Qed.

(** X5 — a run of the hook either leaves the module-level stats options as
    they were, or it is a run with [debug] set that reached the build, and
    then it has merged the verbose settings into them exactly once. *)
Theorem hook_touches_options_only_in_debug_build {Config : Type}
    (w : TryBundleDll.world Config)
    (o : TryBundleDll.TryBundleDllPluginOptions Config)
    (σ : TryBundleDll.store) :
  TryBundleDll.heap_after_hook Config w o σ = σ
  ∨ (TryBundleDll.debug Config o = Some true
     ∧ TryBundleDll.fs_stat Config w (TryBundleDll.manifestFile Config o)
       = TryBundleDll.StatOk false
     ∧ TryBundleDll.heap_after_hook Config w o σ
       = (TryBundleDll.getWebpackStatsConfig (Some true) σ).2).
Proof.
  unfold TryBundleDll.heap_after_hook, TryBundleDll.tryDll, TryBundleDll.catch_,
    TryBundleDll.then_, TryBundleDll.checkManifestFile, TryBundleDll.bundleDll,
    TryBundleDll.callback.
  destruct (TryBundleDll.fs_stat Config w _) as [e|[]]; cbn; [by left..|].
  assert (TryBundleDll.debug Config o = Some true
          ∨ (TryBundleDll.getWebpackStatsConfig (TryBundleDll.debug Config o) σ).2 = σ)
    as [Hdebug|Hsame].
  { destruct (TryBundleDll.debug Config o) as [[]|]; [by left|by right|by right]. }
  - rewrite Hdebug.
    destruct (TryBundleDll.bundler Config w _) as [e|e|err stats]; cbn;
      [by left|by right|].
    destruct (truthy err); cbn; [by right|].
    destruct (TryBundleDll.hasErrors stats); by right.
  - left. destruct (TryBundleDll.bundler Config w _) as [e|e|err stats]; cbn; [done| |];
      destruct (TryBundleDll.getWebpackStatsConfig (TryBundleDll.debug Config o) σ)
        as [r σ']; cbn in *; [done|].
    destruct (truthy err); cbn; [done|].
    by destruct (TryBundleDll.hasErrors stats).
Qed.

(** X6 — merging the verbose settings is idempotent and touches nothing but
    the keys of the verbose bag: a second verbose call changes nothing, every
    key of the verbose bag reads as the bag has it, and every other key of the
    shared object keeps its value, whatever the object held before. *)
Theorem verbose_merge_is_idempotent_and_local (σ : TryBundleDll.store) :
  let σ1 := (TryBundleDll.getWebpackStatsConfig (Some true) σ).2 in
  (TryBundleDll.getWebpackStatsConfig (Some true) σ1).2 = σ1
  ∧ (∀ k b, TryBundleDll.verboseWebpackOutputOptions σ !! k = Some b →
            TryBundleDll.webpackOutputOptions σ1 !! k = Some b)
  ∧ (∀ k, TryBundleDll.verboseWebpackOutputOptions σ !! k = None →
          TryBundleDll.webpackOutputOptions σ1 !! k
          = TryBundleDll.webpackOutputOptions σ !! k).
Proof.
  cbn. unfold object_assign. split; [|split].
  - f_equal. apply map_eq. intros k. rewrite !lookup_union.
    by destruct (TryBundleDll.verboseWebpackOutputOptions σ !! k),
                (TryBundleDll.webpackOutputOptions σ !! k).
  - intros k b Hk. by apply lookup_union_Some_l.
  - intros k Hk. by apply lookup_union_r.
Qed.

(** ** More on the asset entry parser *)

Section MapM.

Context {A B : Type} (f : A → result B).

(** [xs.map(f)] succeeds exactly when [f] succeeds on every element, and
    then the results are in the order of the elements. *)
Lemma mapM_Ok (xs : list A) (ys : list B) :
  mapM f xs = Ok ys ↔ Forall2 (λ x y, f x = Ok y) xs ys.
Proof.
  revert ys. induction xs as [|x xs IH]; intros ys; cbn.
  - split; [intros [= <-]; constructor|by intros ->%Forall2_nil_inv_l].
  - split.
    + intros (y & Hy & Hrest)%bind_Ok_inv.
      apply bind_Ok_inv in Hrest as (ys' & Hys' & [= <-]).
      constructor; [done|]. by apply IH.
    + intros (y & ys' & Hy & Hys' & ->)%Forall2_cons_inv_l.
      rewrite Hy. cbn. apply IH in Hys'. by rewrite Hys'.
Qed.

(** It throws what [f] throws on the first element [f] fails on. *)
Lemma mapM_Throw (xs : list A) (e : error) :
  mapM f xs = Throw e
  ↔ ∃ before x after ys,
      xs = (before ++ x :: after)%list ∧ mapM f before = Ok ys ∧ f x = Throw e.
Proof.
  induction xs as [|x xs IH]; cbn.
  - split; [done|]. intros (before & ? & ? & ? & Heq & _). by destruct before.
  - split.
    + destruct (f x) as [y|e'] eqn:Hx; cbn.
      * destruct (mapM f xs) as [ys|e'] eqn:Hxs; cbn; [done|].
        intros [= ->].
        destruct (proj1 IH eq_refl) as (before & x' & after & ys & -> & Hb & Hx').
        exists (x :: before), x', after, (y :: ys). cbn. by rewrite Hx, Hb.
      * intros [= ->]. by exists [], x, xs, [].
    + intros (before & x' & after & ys & Heq & Hbefore & Hx').
      destruct before as [|b before]; cbn in *.
      * injection Heq as <- <-. by rewrite Hx'.
      * injection Heq as <- ->.
        destruct (f x) as [y|] eqn:Hx; cbn in *; [|done].
        destruct (mapM f before) as [zs|] eqn:Hzs; [|done].
        assert (mapM f (before ++ x' :: after) = Throw e) as ->; [|done].
        apply IH. by exists before, x', after, zs.
Qed.

End MapM.

Section AssetEntriesMore.
Import ParseAssetEntry.

Implicit Types (h : Host) (baseDir p : string).

(** A rewritten path carries the wildcard of the suffix. *)
Lemma recursive_suffix_has_wildcard (q : string) :
  (lastIndexOf "*" (q +:+ "/**/*") =? -1)%Z = false.
Proof.
  apply Z.eqb_neq. unfold lastIndexOf.
  assert (String.get (1 + String.length q) (q +:+ "/**/*") = Some "*"%char) as Hget.
  { by rewrite <- String.append_correct2. }
  pose proof (lastIndexOf_from_found _ _ _ 0%Z (-1)%Z Hget). lia.
Qed.

Lemma recursive_suffix_nonempty (q : string) :
  String.eqb (q +:+ "/**/*") "" = false.
Proof. by destruct q. Qed.

Lemma cloneEntry_id (item : asset_item) : cloneEntry item = item.
Proof. by destruct item as [|[]|]. Qed.

Lemma fmap_cloneEntry (items : list asset_item) : cloneEntry <$> items = items.
Proof.
  induction items as [|item items IH]; [done|].
  cbn. by rewrite cloneEntry_id, IH.
Qed.

Lemma parseAssetEntry_array h baseDir (items : list asset_item) :
  parseAssetEntry h baseDir (EntriesArray items) = mapM (parseOne h baseDir) items.
Proof. cbn. rewrite fmap_cloneEntry. by destruct items. Qed.

(** A relative string is always a glob, rewritten or not. *)
Lemma parsedFrom_relative h baseDir p :
  isAbsolute h p = false →
  parsedFrom h baseDir p = FromGlob (prepareGlobFn h baseDir p) (Some true).
Proof.
  intros Habs. unfold parsedFrom.
  destruct (String.eqb_spec (prepareGlobFn h baseDir p) p) as [->|_]; [|done].
  by rewrite Habs.
Qed.

Lemma parseOne_valid h baseDir (item : asset_item) :
  if valid_item item
  then ∃ e, parseOne h baseDir item = Ok e ∧ is_Some (context e)
  else parseOne h baseDir item = Throw (Error "Invalid 'assets' value in appConfig.").
Proof.
  assert (∀ ctx : option string,
            is_Some (if truthy_str ctx then ctx else Some baseDir)) as Hctx.
  { intros [c|]; cbn; [|by eauto]. destruct (negb _); by eauto. }
  destruct item as [s|[[f|] ctx t]|]; cbn; [| |done|done].
  - eexists. split; [done|]. cbn. by eauto.
  - destruct f as [p|g d]; cbn.
    + destruct (String.eqb p ""); cbn; [done|].
      eexists. split; [done|]. apply Hctx.
    + eexists. split; [done|]. apply Hctx.
Qed.

(** Either the path comes back as it is, or it was a relative directory
    without wildcard and comes back with the recursive suffix. *)
Lemma prepareGlobFn_cases h baseDir p :
  prepareGlobFn h baseDir p = p
  ∨ (lastIndexOf "*" p = (-1)%Z
     ∧ isAbsolute h p = false
     ∧ fs_lookup h (path_resolve h baseDir p) = Some Directory
     ∧ ∃ q, prepareGlobFn h baseDir p = q +:+ "/**/*").
Proof.
  unfold prepareGlobFn.
  destruct (String.eqb_spec p "") as [->|_]; [by left|].
  destruct (_ && _ && _ && _) eqn:Hcond; [|by left]. right.
  apply andb_prop in Hcond as [Hcond Hdir].
  apply andb_prop in Hcond as [Hcond _].
  apply andb_prop in Hcond as [Hstar Habs].
  apply Z.eqb_eq in Hstar. apply negb_true_iff in Habs.
  unfold statSync_isDirectory in Hdir.
  destruct (fs_lookup h _) as [[]|]; [|done..].
  repeat split; [done..|]. by eexists.
Qed.

End AssetEntriesMore.

(** X7 — [prepareGlobFn] is idempotent on every host: a path it has rewritten
    carries a wildcard and is left alone the second time. *)
Theorem prepareGlobFn_idempotent (h : ParseAssetEntry.Host) (baseDir p : string) :
  ParseAssetEntry.prepareGlobFn h baseDir (ParseAssetEntry.prepareGlobFn h baseDir p)
  = ParseAssetEntry.prepareGlobFn h baseDir p.
Proof.
  destruct (prepareGlobFn_cases h baseDir p) as [Hsame|(_ & _ & _ & q & Hq)].
  - by rewrite !Hsame.
  - rewrite Hq. unfold ParseAssetEntry.prepareGlobFn.
    by rewrite recursive_suffix_nonempty, recursive_suffix_has_wildcard.
Qed.

(** X8 — [prepareGlobFn] changes a path only if the path is relative, has no
    wildcard and resolves to an existing directory, and what it returns then
    ends with the recursive suffix; every other path (a wildcard, an absolute
    path, a file, a path that does not exist) comes back as it is. *)
Theorem prepareGlobFn_rewrites_only_relative_directories
    (h : ParseAssetEntry.Host) (baseDir p : string) :
  ParseAssetEntry.prepareGlobFn h baseDir p = p
  ∨ (ParseAssetEntry.lastIndexOf "*" p = (-1)%Z
     ∧ ParseAssetEntry.isAbsolute h p = false
     ∧ ParseAssetEntry.fs_lookup h (ParseAssetEntry.path_resolve h baseDir p)
       = Some ParseAssetEntry.Directory
     ∧ ∃ q, ParseAssetEntry.prepareGlobFn h baseDir p = q +:+ "/**/*").
Proof. apply prepareGlobFn_cases. Qed.

(** X9 — an array of plain strings never fails and is parsed element by
    element, in order: an absolute string becomes a literal path, a relative
    one a glob descriptor of [prepareGlobFn]'s result with [dot: true], each
    with [context = baseDir] and no destination; a single string is parsed as
    the one-element array and the empty string as the empty array. *)
Theorem string_entries_literal_iff_absolute
    (h : ParseAssetEntry.Host) (baseDir : string) :
  let entry_of p :=
    {| ParseAssetEntry.from :=
         if ParseAssetEntry.isAbsolute h p
         then ParseAssetEntry.FromPath p
         else ParseAssetEntry.FromGlob
                (ParseAssetEntry.prepareGlobFn h baseDir p) (Some true);
       ParseAssetEntry.context := Some baseDir;
       ParseAssetEntry.to := None |} in
  (∀ ps : list string,
     ParseAssetEntry.parseAssetEntry h baseDir
       (ParseAssetEntry.EntriesArray (ParseAssetEntry.ItemString <$> ps))
     = Ok (entry_of <$> ps))
  ∧ (∀ s : string,
       ParseAssetEntry.parseAssetEntry h baseDir (ParseAssetEntry.EntriesString s)
       = ParseAssetEntry.parseAssetEntry h baseDir
           (ParseAssetEntry.EntriesArray
              (if String.eqb s "" then [] else [ParseAssetEntry.ItemString s]))).
Proof.
  intros entry_of. split.
  - intros ps. rewrite parseAssetEntry_array.
    induction ps as [|p ps IH]; [done|].
    cbn. cbn in IH. rewrite IH. cbn. do 2 f_equal. unfold entry_of. f_equal.
    destruct (ParseAssetEntry.isAbsolute h p) eqn:Habs.
    + by apply parsedFrom_absolute.
    + by apply parsedFrom_relative.
  - intros s. by destruct s.
Qed.

(** X10 — [parseAssetEntry] is all or nothing: when every element of the
    array is a string or an object with a truthy [from], it returns one parsed
    entry per element, in order, each with a context; as soon as one element
    is anything else it throws "Invalid 'assets' value in appConfig." and
    returns nothing. *)
Theorem parseAssetEntry_all_or_nothing
    (h : ParseAssetEntry.Host) (baseDir : string)
    (items : list ParseAssetEntry.asset_item) :
  if forallb ParseAssetEntry.valid_item items
  then ∃ out,
         ParseAssetEntry.parseAssetEntry h baseDir (ParseAssetEntry.EntriesArray items)
         = Ok out
         ∧ Forall2 (λ item e, ParseAssetEntry.parseOne h baseDir item = Ok e) items out
         ∧ Forall (λ e, is_Some (ParseAssetEntry.context e)) out
  else ParseAssetEntry.parseAssetEntry h baseDir (ParseAssetEntry.EntriesArray items)
       = Throw (Error "Invalid 'assets' value in appConfig.").
Proof.
  rewrite parseAssetEntry_array.
  induction items as [|item items IH]; cbn.
  - exists []. by repeat constructor.
  - pose proof (parseOne_valid h baseDir item) as Hitem.
    destruct (ParseAssetEntry.valid_item item); cbn.
    + destruct Hitem as (e & He & Hctx). rewrite He. cbn.
      destruct (forallb ParseAssetEntry.valid_item items).
      * destruct IH as (out & Hout & Hall & Hctxs). rewrite Hout. cbn.
        exists (e :: out). by repeat constructor.
      * by rewrite IH.
    + by rewrite Hitem.
Qed.

(** X11 — the object form [{from: p}] of a non-empty string [p], without
    destination and context, is parsed exactly as the plain string [p]. *)
Theorem object_form_agrees_with_string_form
    (h : ParseAssetEntry.Host) (baseDir p : string) :
  p ≠ "" →
  ParseAssetEntry.parseAssetEntry h baseDir
    (ParseAssetEntry.EntriesArray
       [ParseAssetEntry.ItemObject
          {| ParseAssetEntry.entry_from := Some (ParseAssetEntry.FromPath p);
             ParseAssetEntry.entry_context := None;
             ParseAssetEntry.entry_to := None |}])
  = ParseAssetEntry.parseAssetEntry h baseDir
      (ParseAssetEntry.EntriesArray [ParseAssetEntry.ItemString p]).
Proof.
  intros Hp. cbn. by destruct (String.eqb_spec p "").
Qed.

Lemma object_form_agrees_with_string_form_witness :
  ParseAssetEntry.parseAssetEntry ParseAssetEntry.exampleHost "/proj"
    (ParseAssetEntry.EntriesArray
       [ParseAssetEntry.ItemObject
          {| ParseAssetEntry.entry_from := Some (ParseAssetEntry.FromPath "assets");
             ParseAssetEntry.entry_context := None;
             ParseAssetEntry.entry_to := None |}])
  = ParseAssetEntry.parseAssetEntry ParseAssetEntry.exampleHost "/proj"
      (ParseAssetEntry.EntriesArray [ParseAssetEntry.ItemString "assets"]).
Proof.
  apply (object_form_agrees_with_string_form ParseAssetEntry.exampleHost "/proj" "assets").
  discriminate.
Defined.

(** ** More on the filter names and the project filter *)

Section FilterNames.
Import WebpackConfig.

Lemma nonempty_true (s : string) : nonempty s = true ↔ s ≠ "".
Proof. unfold nonempty. rewrite negb_true_iff. apply String.eqb_neq. Qed.

Lemma nonempty_trim (s : string) :
  nonempty s && nonempty (trim s) = nonempty (trim s).
Proof. destruct s; [done|]. by cbn [nonempty String.eqb negb andb]. Qed.

(** The loop of [prepareFilterNames] over an array, started from any
    duplicate-free accumulator. *)
Lemma prepareFilterNames_loop (names : list string) : ∀ acc : list string,
  NoDup acc →
  let filterNames :=
    foldl (λ filterNames filterName,
             if nonempty filterName && nonempty (trim filterName)
                && negb (includes filterNames (trim filterName))
             then (filterNames ++ [trim filterName])%list
             else filterNames)
          acc names in
  NoDup filterNames
  ∧ ∀ n, n ∈ filterNames
         ↔ n ∈ acc ∨ (n ≠ "" ∧ ∃ raw, raw ∈ names ∧ n = trim raw).
Proof.
  induction names as [|raw names IH]; intros acc Hnd; cbn.
  - split; [done|]. intros n. split; [by left|].
    intros [?|(_ & ? & []%elem_of_nil & _)]; done.
  - rewrite nonempty_trim. unfold includes.
    destruct (nonempty (trim raw)) eqn:Hraw; cbn.
    + case_bool_decide as Hin; cbn.
      * destruct (IH acc Hnd) as [Hnd' Hmem]. split; [done|].
        intros n. rewrite Hmem. split.
        -- intros [?|(Hn & raw' & Hraw' & ->)]; [by left|right].
           split; [done|]. exists raw'. split; [by right|done].
        -- intros [?|(Hn & raw' & Hraw' & ->)]; [by left|].
           apply elem_of_cons in Hraw' as [->|Hraw']; [by left|].
           right. split; [done|]. by exists raw'.
      * destruct (IH (acc ++ [trim raw])%list) as [Hnd' Hmem].
        { apply NoDup_app. split; [done|]. split; [|apply NoDup_singleton].
          by intros ? ? ->%list_elem_of_singleton. }
        split; [done|]. intros n. rewrite Hmem, elem_of_app, list_elem_of_singleton.
        apply nonempty_true in Hraw. split.
        -- intros [[?| ->]|(Hn & raw' & Hraw' & ->)]; [by left| |].
           ++ right. split; [done|]. exists raw. split; [by left|done].
           ++ right. split; [done|]. exists raw'. split; [by right|done].
        -- intros [?|(Hn & raw' & Hraw' & ->)]; [by left; left|].
           apply elem_of_cons in Hraw' as [->|Hraw']; [left; by right|].
           right. split; [done|]. by exists raw'.
    + destruct (IH acc Hnd) as [Hnd' Hmem]. split; [done|].
      intros n. rewrite Hmem. split.
      * intros [?|(Hn & raw' & Hraw' & ->)]; [by left|right].
        split; [done|]. exists raw'. split; [by right|done].
      * intros [?|(Hn & raw' & Hraw' & ->)]; [by left|].
        apply elem_of_cons in Hraw' as [->|Hraw'].
        -- apply nonempty_true in Hn. congruence.
        -- right. split; [done|]. by exists raw'.
Qed.

Lemma filter_all {A} (f : A → bool) (xs : list A) :
  (∀ x, x ∈ xs → f x = true) → List.filter f xs = xs.
Proof.
  induction xs as [|x xs IH]; intros Hall; [done|]. cbn.
  rewrite Hall by (by left). f_equal. apply IH. intros y Hy. apply Hall. by right.
Qed.

End FilterNames.


(** X13 — an empty list of filter names keeps every project of a group, and
    so does a list that contains the group's own reserved name ([libs] for
    the libraries, [apps] for the applications), whatever else it contains. *)
Theorem own_group_name_selects_whole_group {Detail : Type}
    (k : WebpackConfig.kind) (filterNames : list string)
    (configs : list (WebpackConfig.ProjectConfig Detail)) :
  filterNames = [] ∨ WebpackConfig.reserved k ∈ filterNames →
  WebpackConfig.filteredConfigs k filterNames configs = configs.
Proof.
  intros [->|Hown].
  - destruct k; cbn; unfold WebpackConfig.filteredLibConfigs,
      WebpackConfig.filteredAppConfigs; cbn; by apply filter_all.
  - assert (filterNames ≠ []) as Hne by (intros ->; by apply elem_of_nil in Hown).
    rewrite filteredConfigs_unfold by done.
    destruct (negb _ && _) eqn:Hcond.
    + apply shortcut_fires_iff in Hcond; [|done].
      rewrite Forall_forall in Hcond. apply Hcond in Hown. by destruct k.
    + apply filter_all. intros pc _. unfold includes.
      by rewrite bool_decide_eq_true_2.
Qed.

Lemma own_group_name_selects_whole_group_witness :
  WebpackConfig.filteredConfigs WebpackConfig.App ["core"; "apps"]
    [{| WebpackConfig.name := Some "web"; WebpackConfig.skip := false;
        WebpackConfig.detail := tt |};
     {| WebpackConfig.name := None; WebpackConfig.skip := false;
        WebpackConfig.detail := tt |}]
  = [{| WebpackConfig.name := Some "web"; WebpackConfig.skip := false;
        WebpackConfig.detail := tt |};
     {| WebpackConfig.name := None; WebpackConfig.skip := false;
        WebpackConfig.detail := tt |}].
Proof.
  apply (own_group_name_selects_whole_group WebpackConfig.App ["core"; "apps"]).
  right. apply elem_of_cons. right. apply elem_of_cons. by left.
Defined.

(** ** More on [getWebpackConfig] *)

Section GetWebpackConfigMore.
Import WebpackConfig.

Context {Detail Configuration : Type}.
Implicit Types (c : Collaborators Detail Configuration)
  (p : Prepared Detail) (b : Built Detail Configuration).

(** What a successful preparation has checked, and what it hands on. *)
Lemma prepare_Ok_inv c configPath env argv p :
  prepare c configPath env argv = Ok p →
  configPath ≠ ""
  ∧ test_json_suffix configPath = true
  ∧ configExists _ _ c configPath = true
  ∧ existsSchemaPath _ _ c = true
  ∧ (∃ raw, readJsonSync _ _ c configPath = inr raw
            ∧ validateSchema _ _ c raw = None)
  ∧ (libConfigs _ p ≠ [] ∨ appConfigs _ p ≠ [])
  ∧ projectRoot _ p = dirname _ _ c configPath
  ∧ fromCli _ p = from_option fromAngularBuildCli false argv.
Proof.
  unfold prepare. intros H.
  destruct (nonempty configPath) eqn:Hpath; cbn [negb] in H; [|done].
  apply nonempty_true in Hpath.
  apply bind_Ok_inv in H as (env' & _ & H).
  destruct (options _) as [opts|]; [destruct (negb _)|];
    cbv beta iota zeta in H;
  (destruct (test_json_suffix configPath); cbn [negb] in H; [|done];
   destruct (configExists _ _ c configPath); cbn [negb] in H; [|done];
   destruct (readJsonSync _ _ c configPath) as [msg|raw] eqn:Hread; [done|];
   destruct (existsSchemaPath _ _ c); [|done];
   destruct (validateSchema _ _ c raw) eqn:Hvalid; [done|];
   apply bind_Ok_inv in H as (cfg & _ & H);
   destruct (_ && _) eqn:Hempty; [done|];
   injection H as <-; cbn;
   repeat split; try done; [by exists raw|];
   apply andb_false_iff in Hempty as [Happs|Hlibs];
   [right; intros Heq; by rewrite Heq in Happs
   |left; intros Heq; by rewrite Heq in Hlibs]).
Qed.

Lemma buildLib_Some_inv c p libConfig b :
  buildLib _ _ c p libConfig = Ok (Some b) →
  ∃ overridden defaulted wp,
    applyProjectConfigWithEnvOverrides _ _ c libConfig (environment _ p) = Ok overridden
    ∧ skip overridden = false
    ∧ validateProjectConfig _ _ c (projectRoot _ p) overridden = Ok ()
    ∧ applyProjectConfigDefaults _ _ c (projectRoot _ p) overridden (environment _ p)
      = Ok defaulted
    ∧ b = tag _ _ p defaulted wp.
Proof.
  unfold buildLib. intros H.
  apply bind_Ok_inv in H as (overridden & Hover & H).
  destruct (skip overridden) eqn:Hskip; [done|].
  apply bind_Ok_inv in H as ([] & Hvalid & H).
  apply bind_Ok_inv in H as (defaulted & Hdef & H).
  apply bind_Ok_inv in H as ([wp|] & _ & H); [|done].
  injection H as <-. by exists overridden, defaulted, wp.
Qed.

Lemma buildApp_Some_inv c p appConfig b :
  buildApp _ _ c p appConfig = Ok (Some b) →
  ∃ overridden defaulted wp,
    applyProjectConfigWithEnvOverrides _ _ c appConfig (environment _ p) = Ok overridden
    ∧ skip overridden = false
    ∧ validateProjectConfig _ _ c (projectRoot _ p) overridden = Ok ()
    ∧ applyProjectConfigDefaults _ _ c (projectRoot _ p) overridden (environment _ p)
      = Ok defaulted
    ∧ b = tag _ _ p defaulted wp.
Proof.
  unfold buildApp. intros H.
  apply bind_Ok_inv in H as (overridden & Hover & H).
  destruct (skip overridden) eqn:Hskip; [done|].
  apply bind_Ok_inv in H as ([] & Hvalid & H).
  apply bind_Ok_inv in H as (defaulted & Hdef & H).
  destruct (dll (environment _ p));
    apply bind_Ok_inv in H as ([wp|] & _ & H); try done;
    injection H as <-; by exists overridden, defaulted, wp.
Qed.

(** An element pushed by a loop comes from an element of the list the loop
    runs over. *)
Lemma mapM_omap_elem {X Y} (f : X → result (option Y)) (xs : list X)
    (ys : list (option Y)) (y : Y) :
  mapM f xs = Ok ys → y ∈ omap id ys → ∃ x, x ∈ xs ∧ f x = Ok (Some y).
Proof.
  intros Hall%mapM_Ok Hy. apply list_elem_of_omap in Hy as (oy & Hoy & Heq).
  cbn in Heq. subst oy.
  apply list_elem_of_lookup in Hoy as [i Hi].
  destruct (Forall2_lookup_r _ _ _ _ _ Hall Hi) as (x & Hx & Hfx).
  exists x. split; [|done]. apply list_elem_of_lookup. by exists i.
Qed.

Lemma length_omap_le {X Y} (g : X → option Y) (xs : list X) :
  length (omap g xs) <= length xs.
Proof.
  induction xs as [|x xs IH]; cbn; [lia|]. destruct (g x); cbn; lia.
Qed.

End GetWebpackConfigMore.

(** X14 — [getWebpackConfig] returns only after every check of the
    configuration file has passed: the path is not empty, ends in [.json],
    names an existing file that could be read, and the schema file was found
    and reported no violation for what was read. *)
Theorem getWebpackConfig_success_requirements {Detail Configuration : Type}
    (c : WebpackConfig.Collaborators Detail Configuration)
    (configPath : string) (env : option WebpackConfig.Environment)
    (argv : option WebpackConfig.Argv)
    (webpackConfigs : list (WebpackConfig.Built Detail Configuration)) :
  WebpackConfig.getWebpackConfig c configPath env argv = Ok webpackConfigs →
  configPath ≠ ""
  ∧ WebpackConfig.test_json_suffix configPath = true
  ∧ WebpackConfig.configExists _ _ c configPath = true
  ∧ WebpackConfig.existsSchemaPath _ _ c = true
  ∧ ∃ raw, WebpackConfig.readJsonSync _ _ c configPath = inr raw
           ∧ WebpackConfig.validateSchema _ _ c raw = None.
Proof.
  unfold WebpackConfig.getWebpackConfig. intros H.
  apply bind_Ok_inv in H as (p & Hp & _).
  apply prepare_Ok_inv in Hp as (? & ? & ? & ? & ? & _). done.
Qed.

Lemma getWebpackConfig_success_requirements_witness :
  "/proj/angular-build.json" ≠ ""
  ∧ WebpackConfig.test_json_suffix "/proj/angular-build.json" = true
  ∧ WebpackConfig.configExists _ _ WebpackConfig.exampleCollaborators
      "/proj/angular-build.json" = true
  ∧ WebpackConfig.existsSchemaPath _ _ WebpackConfig.exampleCollaborators = true
  ∧ ∃ raw, WebpackConfig.readJsonSync _ _ WebpackConfig.exampleCollaborators
             "/proj/angular-build.json" = inr raw
           ∧ WebpackConfig.validateSchema _ _ WebpackConfig.exampleCollaborators raw
             = None.
Proof.
  apply (getWebpackConfig_success_requirements WebpackConfig.exampleCollaborators
           "/proj/angular-build.json" None None
           [{| WebpackConfig.wpConfig := "core";
               WebpackConfig._projectConfig := None |}]).
  reflexivity.
Defined.



(** X16 — there is no partial result: when the preparation has succeeded and
    building one project throws, after the projects before it were built,
    [getWebpackConfig] throws that very error, whatever the projects before
    and after would have given.  Libraries are built before applications. *)
Theorem first_failing_project_aborts {Detail Configuration : Type}
    (c : WebpackConfig.Collaborators Detail Configuration)
    (configPath : string) (env : option WebpackConfig.Environment)
    (argv : option WebpackConfig.Argv) (p : WebpackConfig.Prepared Detail)
    (before after : list (WebpackConfig.ProjectConfig Detail))
    (x : WebpackConfig.ProjectConfig Detail)
    (built : list (option (WebpackConfig.Built Detail Configuration)))
    (e : error) :
  WebpackConfig.prepare c configPath env argv = Ok p →
  (WebpackConfig.filteredLibConfigs (WebpackConfig.filterNames _ p)
     (WebpackConfig.libConfigs _ p) = (before ++ x :: after)%list
   ∧ mapM (WebpackConfig.buildLib _ _ c p) before = Ok built
   ∧ WebpackConfig.buildLib _ _ c p x = Throw e)
  ∨ ((∃ fromLibs,
        mapM (WebpackConfig.buildLib _ _ c p)
          (WebpackConfig.filteredLibConfigs (WebpackConfig.filterNames _ p)
             (WebpackConfig.libConfigs _ p)) = Ok fromLibs)
     ∧ WebpackConfig.filteredAppConfigs (WebpackConfig.filterNames _ p)
         (WebpackConfig.appConfigs _ p) = (before ++ x :: after)%list
     ∧ mapM (WebpackConfig.buildApp _ _ c p) before = Ok built
     ∧ WebpackConfig.buildApp _ _ c p x = Throw e) →
  WebpackConfig.getWebpackConfig c configPath env argv = Throw e.
Proof.
  intros Hp Hfail. unfold WebpackConfig.getWebpackConfig. rewrite Hp. cbn.
  unfold WebpackConfig.collectConfigs.
  destruct Hfail as [(Hsplit & Hbefore & Hx)|([fromLibs Hlibs] & Hsplit & Hbefore & Hx)].
  - assert (mapM (WebpackConfig.buildLib _ _ c p)
              (WebpackConfig.filteredLibConfigs (WebpackConfig.filterNames _ p)
                 (WebpackConfig.libConfigs _ p)) = Throw e) as ->; [|done].
    apply mapM_Throw. by exists before, x, after, built.
  - rewrite Hlibs. cbn.
    assert (mapM (WebpackConfig.buildApp _ _ c p)
              (WebpackConfig.filteredAppConfigs (WebpackConfig.filterNames _ p)
                 (WebpackConfig.appConfigs _ p)) = Throw e) as ->; [|done].
    apply mapM_Throw. by exists before, x, after, built.
Qed.

Lemma first_failing_project_aborts_witness :
  WebpackConfig.getWebpackConfig WebpackConfig.strictCollaborators
    "/proj/angular-build.json" None None
  = Throw (InvalidConfigError "The project has no name.").
Proof.
  apply (first_failing_project_aborts WebpackConfig.strictCollaborators
           "/proj/angular-build.json" None None
           {| WebpackConfig.projectRoot := "/proj";
              WebpackConfig.fromCli := false;
              WebpackConfig.filterNames := [];
              WebpackConfig.cleanOutDirs := false;
              WebpackConfig.environment :=
                {| WebpackConfig.dll := false; WebpackConfig.options := None |};
              WebpackConfig.angularBuildConfig := WebpackConfig.brokenBuildConfig;
              WebpackConfig.libConfigs :=
                default [] (WebpackConfig.libs _ WebpackConfig.brokenBuildConfig);
              WebpackConfig.appConfigs :=
                default [] (WebpackConfig.apps _ WebpackConfig.brokenBuildConfig) |}
           [{| WebpackConfig.name := Some "core"; WebpackConfig.skip := false;
               WebpackConfig.detail := tt |}]
           [{| WebpackConfig.name := Some "utils"; WebpackConfig.skip := false;
               WebpackConfig.detail := tt |}]
           {| WebpackConfig.name := None; WebpackConfig.skip := false;
              WebpackConfig.detail := tt |}
           [Some {| WebpackConfig.wpConfig := "core";
                    WebpackConfig._projectConfig := None |}]);
    [reflexivity|].
  left. repeat split; reflexivity.
Defined.

Section ConfigPath.
Import WebpackConfig.

Lemma lowerCase_length (s : string) : String.length (lowerCase s) = String.length s.
Proof. induction s as [|a s IH]; [done|]. cbn. by rewrite IH. Qed.

Lemma substring_all (s : string) : String.substring 0 (String.length s) s = s.
Proof. induction s as [|a s IH]; [done|]. cbn. by rewrite IH. Qed.

Lemma substring_append_suffix (s1 s2 : string) :
  String.substring (String.length s1) (String.length s2) (s1 +:+ s2) = s2.
Proof. induction s1 as [|a s1 IH]; cbn; [apply substring_all|done]. Qed.

Lemma substring_split (s : string) : ∀ n,
  n <= String.length s →
  s = String.substring 0 n s +:+ String.substring n (String.length s - n) s.
Proof.
  induction s as [|a s IH]; intros [|n] Hn; cbn in *; try done; try lia.
  - by rewrite substring_all.
  - change (String a s = String a (String.substring 0 n s
                                     +:+ String.substring n (String.length s - n) s)).
    f_equal. apply IH. lia.
Qed.

End ConfigPath.

(** X17 — the test of the configuration path accepts exactly the paths that
    end in [.json], in any mix of upper and lower case. *)
Theorem config_path_suffix_is_case_insensitive (configPath : string) :
  WebpackConfig.test_json_suffix configPath = true
  ↔ ∃ stem ext, configPath = stem +:+ ext ∧ WebpackConfig.lowerCase ext = ".json".
Proof.
  unfold WebpackConfig.test_json_suffix. rewrite andb_true_iff, Nat.leb_le, String.eqb_eq.
  split.
  - intros [Hlen Hext].
    exists (String.substring 0 (String.length configPath - 5) configPath),
      (String.substring (String.length configPath - 5) 5 configPath).
    split; [|done].
    pose proof (substring_split configPath (String.length configPath - 5)) as Hsplit.
    replace (String.length configPath - (String.length configPath - 5)) with 5
      in Hsplit by lia.
    apply Hsplit. lia.
  - intros (stem & ext & -> & Hext).
    assert (String.length ext = 5) as Hlen.
    { by rewrite <- lowerCase_length, Hext. }
    rewrite length_append, Hlen.
    replace (String.length stem + 5 - 5) with (String.length stem) by lia.
    split; [lia|]. rewrite <- Hlen at 1. by rewrite substring_append_suffix.
Qed.

(** X18 — an unusable configuration path is reported as [InvalidOptionError]
    before the file is read and before any project is looked at: an empty path
    always; a path that does not end in [.json], and then a path at which no
    file exists, provided parsing [WEBPACK_ENV] did not throw first. *)
Theorem unusable_config_path_is_an_option_error {Detail Configuration : Type}
    (c : WebpackConfig.Collaborators Detail Configuration)
    (configPath : string) (env : option WebpackConfig.Environment)
    (argv : option WebpackConfig.Argv) :
  (configPath = "" →
     WebpackConfig.getWebpackConfig c configPath env argv
     = Throw (InvalidOptionError "The 'configPath' is required."))
  ∧ ((∀ e, WebpackConfig.WEBPACK_ENV _ _ c ≠ Some (Throw e)) →
     configPath ≠ "" →
     (WebpackConfig.test_json_suffix configPath = false →
        WebpackConfig.getWebpackConfig c configPath env argv
        = Throw (InvalidOptionError
                   ("Invalid config file, path: " +:+ configPath +:+ ".")))
     ∧ (WebpackConfig.test_json_suffix configPath = true →
        WebpackConfig.configExists _ _ c configPath = false →
        ∃ msg, WebpackConfig.getWebpackConfig c configPath env argv
               = Throw (InvalidOptionError msg))).
Proof.
  unfold WebpackConfig.getWebpackConfig, WebpackConfig.prepare. split.
  - by intros ->.
  - intros Henv Hpath%nonempty_true. rewrite Hpath. cbn [negb].
    assert (∃ env',
      (match env, WebpackConfig.WEBPACK_ENV _ _ c with
       | None, Some parsed =>
           if negb (from_option WebpackConfig.fromAngularBuildCli false argv)
           then envObj ← parsed; Ok envObj
           else Ok None
       | _, _ => Ok env
       end) = Ok env') as [env' ->].
    { destruct env as [env0|]; [by eauto|].
      destruct (WebpackConfig.WEBPACK_ENV _ _ c) as [[parsed|e]|] eqn:Hw;
        [|by destruct (Henv e)|by eauto].
      destruct (negb _); by eauto. }
    cbn.
    destruct (WebpackConfig.options _) as [opts|]; [destruct (negb _)|];
      cbv beta iota zeta;
      (split; [by intros ->|]; intros -> ->; cbn [negb]; by eexists).
Qed.

Lemma unusable_config_path_is_an_option_error_witness :
  WebpackConfig.getWebpackConfig WebpackConfig.exampleCollaborators
    "/proj/webpack.config.js" None None
  = Throw (InvalidOptionError "Invalid config file, path: /proj/webpack.config.js.").
Proof.
  apply (proj2 (unusable_config_path_is_an_option_error
                  WebpackConfig.exampleCollaborators
                  "/proj/webpack.config.js" None None));
    [discriminate|discriminate|reflexivity].
Defined.

(** ** More on the vendor-bundle-only fragment *)

Section DllEntriesMore.
Import Webpack Dll.

Implicit Types (xs ys : list string).

(** Pushing never reorders or removes what is already there. *)
Lemma foldl_pushUnique_prefix ys : ∀ xs, ∃ rest, foldl pushUnique xs ys = (xs ++ rest)%list.
Proof.
  induction ys as [|y ys IH]; intros xs; cbn.
  - exists []. by rewrite app_nil_r.
  - destruct (IH (pushUnique xs y)) as [rest ->].
    unfold pushUnique. destruct (includes xs y); [by exists rest|].
    exists (y :: rest). by rewrite <- app_assoc.
Qed.

(** Without duplicates to drop, pushing is appending. *)
Lemma foldl_pushUnique_NoDup_app ys : ∀ xs,
  NoDup (xs ++ ys) → foldl pushUnique xs ys = (xs ++ ys)%list.
Proof.
  induction ys as [|y ys IH]; intros xs Hnd; cbn; [by rewrite app_nil_r|].
  assert (y ∉ xs) as Hy.
  { apply NoDup_app in Hnd as (_ & Hdisj & _). intros Hin.
    apply (Hdisj y Hin). by left. }
  unfold pushUnique, includes. rewrite bool_decide_eq_false_2 by done.
  rewrite IH; rewrite <- app_assoc; done.
Qed.

Lemma nil_iff_no_elem {X} (l : list X) : l = [] ↔ ∀ x, x ∉ l.
Proof.
  split; [intros -> x; apply not_elem_of_nil|apply elem_of_nil_inv].
Qed.

Lemma collectEntries_nil (r : DllParsedResult) :
  ((collectEntries r).1 = [] ↔ tsEntries r = [])
  ∧ ((collectEntries r).2 = []
     ↔ (tsEntries r ++ scriptEntries r ++ styleEntries r)%list = []).
Proof.
  rewrite !nil_iff_no_elem. split.
  - split; intros H x; specialize (H x);
      by rewrite (proj1 (collectEntries_elem_of r x)) in *.
  - split; intros H x; specialize (H x);
      rewrite (proj2 (collectEntries_elem_of r x)), ?elem_of_app in *; tauto.
Qed.

End DllEntriesMore.

(** X19 — the vendor chunk lists the ts entries first: they are a prefix of
    the chunk's array, in the order [tsEntries] has them; and when the parsed
    dll result lists no module twice, nothing is dropped or reordered: the
    array is the ts entries, then the scripts, then the styles. *)
Theorem vendor_entries_keep_their_order (r : Dll.DllParsedResult) :
  (∃ rest, (Dll.collectEntries r).2 = ((Dll.collectEntries r).1 ++ rest)%list)
  ∧ (NoDup (Dll.tsEntries r ++ Dll.scriptEntries r ++ Dll.styleEntries r) →
     Dll.collectEntries r
     = (Dll.tsEntries r,
        (Dll.tsEntries r ++ Dll.scriptEntries r ++ Dll.styleEntries r)%list)).
Proof.
  rewrite collectEntries_unfold. cbn. split.
  - destruct (foldl_pushUnique_prefix (Dll.scriptEntries r)
                (foldl Dll.pushUnique [] (Dll.tsEntries r))) as [rest1 ->].
    destruct (foldl_pushUnique_prefix (Dll.styleEntries r)
                (foldl Dll.pushUnique [] (Dll.tsEntries r) ++ rest1)) as [rest2 ->].
    exists (rest1 ++ rest2)%list. by rewrite app_assoc.
  - intros Hnd.
    assert (foldl Dll.pushUnique [] (Dll.tsEntries r) = Dll.tsEntries r) as ->.
    { apply (foldl_pushUnique_NoDup_app _ []). cbn. by apply NoDup_app in Hnd as [? _]. }
    f_equal.
    rewrite (foldl_pushUnique_NoDup_app (Dll.scriptEntries r)).
    + rewrite foldl_pushUnique_NoDup_app; by rewrite <- app_assoc.
    + rewrite app_assoc in Hnd. by apply NoDup_app in Hnd as [? _].
Qed.

(** X20 — the vendor-bundle-only fragment is produced exactly when the
    project has an output path, [dlls] is set, the parsed dll result is there
    and lists at least one module, [ts-loader] resolves if there is a ts
    entry, and the angular fix plugins can be built. *)
Theorem dll_partial_succeeds_iff
    (workspaceRoot : string) (path_resolve : list string → string)
    (outputHashFormat_bundle : string)
    (resolveLoaderPath : string → result string)
    (getAngularFixPlugins : Dll.AngularBuildContext → result (list Webpack.plugin))
    (angularBuildContext : Dll.AngularBuildContext) :
  (∃ cfg, Dll.getAppDllWebpackConfigPartial workspaceRoot path_resolve
            outputHashFormat_bundle resolveLoaderPath getAngularFixPlugins
            angularBuildContext = Ok cfg)
  ↔ truthy_str (Dll.outputPath (Dll.projectConfig angularBuildContext)) = true
    ∧ Dll.dlls (Dll.projectConfig angularBuildContext) = true
    ∧ ∃ r, Dll._dllParsedResult (Dll.projectConfig angularBuildContext) = Some r
           ∧ (Dll.tsEntries r ++ Dll.scriptEntries r ++ Dll.styleEntries r)%list ≠ []
           ∧ (Dll.tsEntries r ≠ [] → ∃ l, resolveLoaderPath "ts-loader" = Ok l)
           ∧ ∃ ps, getAngularFixPlugins angularBuildContext = Ok ps.
Proof.
  unfold Dll.getAppDllWebpackConfigPartial.
  destruct (truthy_str (Dll.outputPath _)); cbn [negb];
    [|split; [by intros [? ?]|by intros [? _]]].
  destruct (Dll.dlls _);
    [|split; [by intros [? ?]|by intros (_ & ? & _)]].
  destruct (Dll._dllParsedResult _) as [r|];
    [|split; [by intros [? ?]|by intros (_ & _ & ? & ? & _)]].
  pose proof (collectEntries_nil r) as [Hts Hes].
  destruct (Dll.collectEntries r) as [tsEntries entries]. cbn in Hts, Hes.
  change (Ok (tsEntries, entries) ≫= ?f) with (f (tsEntries, entries)).
  cbv beta iota.
  split.
  - intros [cfg Hcfg]. split; [done|]. split; [done|]. exists r. split; [done|].
    destruct entries as [|x entries]; [done|]. cbn [length Nat.eqb] in Hcfg.
    split; [intros Hnil; by apply Hes in Hnil|].
    apply bind_Ok_inv in Hcfg as (rules & Hrules & Hcfg).
    apply bind_Ok_inv in Hcfg as (ps & Hps & _).
    split; [|by exists ps].
    intros Hne. destruct tsEntries as [|t tsEntries]; [by destruct Hne; apply Hts|].
    cbn [length Nat.ltb Nat.leb] in Hrules.
    apply bind_Ok_inv in Hrules as (l & Hl & _). by exists l.
  - intros (_ & _ & r' & [= <-] & Hne & Hloader & ps & Hps).
    destruct entries as [|x entries]; [by destruct Hne; apply Hes|].
    cbn [length Nat.eqb]. rewrite Hps.
    destruct tsEntries as [|t tsEntries]; cbn [length Nat.ltb Nat.leb].
    + by eexists.
    + destruct Hloader as [l ->]; [intros Hnil; by apply Hts in Hnil|].
      by eexists.
Qed.

(** X21 — in a fragment that was produced, the ts rule and the [.ts]
    extension are there exactly when the parsed dll result has ts entries:
    without ts entries there is no rule and only [.js] is resolved; with ts
    entries there is the single rule for [\.ts$], which includes the
    duplicate-free ts entries, and [.ts] is resolved before [.js]. *)
Theorem ts_rule_follows_ts_entries
    (workspaceRoot : string) (path_resolve : list string → string)
    (outputHashFormat_bundle : string)
    (resolveLoaderPath : string → result string)
    (getAngularFixPlugins : Dll.AngularBuildContext → result (list Webpack.plugin))
    (angularBuildContext : Dll.AngularBuildContext) (cfg : Webpack.Configuration) :
  Dll.getAppDllWebpackConfigPartial workspaceRoot path_resolve
    outputHashFormat_bundle resolveLoaderPath getAngularFixPlugins
    angularBuildContext = Ok cfg →
  ∃ r,
    Dll._dllParsedResult (Dll.projectConfig angularBuildContext) = Some r
    ∧ (Dll.tsEntries r = [] →
       Webpack.module_rules cfg = Some []
       ∧ Webpack.resolve_extensions cfg = Some [".js"])
    ∧ (Dll.tsEntries r ≠ [] →
       Webpack.resolve_extensions cfg = Some [".ts"; ".js"]
       ∧ ∃ rule, Webpack.module_rules cfg = Some [rule]
                 ∧ Webpack.test rule = "\.ts$"
                 ∧ Webpack.include rule = Some (Dll.collectEntries r).1
                 ∧ Webpack.exclude rule = None).
Proof.
  unfold Dll.getAppDllWebpackConfigPartial. intros Hcfg.
  destruct (negb (truthy_str _)); [done|].
  apply bind_Ok_inv in Hcfg as ([tsEntries entries] & Hcollect & Hcfg).
  destruct (Dll.dlls _); [|by injection Hcollect as <- <-].
  destruct (Dll._dllParsedResult _) as [r|]; [|done].
  injection Hcollect as Hcollect. exists r. split; [done|].
  pose proof (collectEntries_nil r) as [Hts _].
  rewrite Hcollect in *. cbn [fst snd] in *.
  destruct (length entries =? 0)%nat; [done|].
  apply bind_Ok_inv in Hcfg as (rules & Hrules & Hcfg).
  apply bind_Ok_inv in Hcfg as (fixPlugins & _ & Hcfg).
  injection Hcfg as <-. cbn [Webpack.module_rules Webpack.resolve_extensions].
  destruct tsEntries as [|t tsEntries]; cbn [length Nat.ltb Nat.leb] in *.
  - injection Hrules as <-. split; [done|]. intros Hne. destruct Hne. by apply Hts.
  - split; [intros Hnil; by apply Hts in Hnil|]. intros _. split; [done|].
    apply bind_Ok_inv in Hrules as (l & _ & [= <-]). by eexists.
Qed.

Lemma ts_rule_follows_ts_entries_witness :
  ∃ cfg rule,
    Dll.getAppDllWebpackConfigPartial "/proj" Dll.joinSegments "[chunkhash]"
      Ok (λ _, Ok []) Dll.exampleDllContext = Ok cfg
    ∧ Webpack.resolve_extensions cfg = Some [".ts"; ".js"]
    ∧ Webpack.module_rules cfg = Some [rule]
    ∧ Webpack.include rule = Some ["src/polyfills.ts"].
Proof.
  eexists.
  destruct (ts_rule_follows_ts_entries "/proj" Dll.joinSegments "[chunkhash]"
              Ok (λ _, Ok []) Dll.exampleDllContext _ eq_refl)
    as (r & Hr & _ & Hts).
  injection Hr as <-.
  destruct Hts as (Hext & rule & Hrules & _ & Hinclude & _); [discriminate|].
  exists rule. split; [reflexivity|]. split; [exact Hext|]. split; [exact Hrules|].
  exact Hinclude.
Defined.

(** X22 — [getAppDllWebpackConfig] returns the empty object, without
    consulting any builder, for a project that is not the dll variant of an
    application; and a configuration it returns lacks entry points in that case
    only. *)
Theorem dll_config_lacks_entry_points_iff_not_a_dll_app
    (workspaceRoot : string) (path_resolve : list string → string)
    (outputHashFormat_bundle : string)
    (resolveLoaderPath : string → result string)
    (getAngularFixPlugins : Dll.AngularBuildContext → result (list Webpack.plugin))
    (getCustomWebpackConfig :
       string → Dll.AngularBuildContext → result (option Webpack.Configuration))
    (getAppCommonWebpackConfigPartial getAppStylesWebpackConfigPartial :
       Dll.AngularBuildContext → result Webpack.Configuration)
    (webpackMerge : list Webpack.Configuration → Webpack.Configuration)
    (angularBuildContext : Dll.AngularBuildContext) :
  let not_a_dll_app :=
    Dll._isDll (Dll.projectConfig angularBuildContext) = false
    ∨ Dll._projectType (Dll.projectConfig angularBuildContext) ≠ Some "app" in
  let result :=
    Dll.getAppDllWebpackConfig workspaceRoot path_resolve outputHashFormat_bundle
      resolveLoaderPath getAngularFixPlugins getCustomWebpackConfig
      getAppCommonWebpackConfigPartial getAppStylesWebpackConfigPartial
      webpackMerge angularBuildContext in
  (not_a_dll_app → result = Ok Webpack.emptyConfiguration)
  ∧ (∀ cfg, result = Ok cfg → (Webpack.no_entry_points cfg ↔ not_a_dll_app)).
Proof.
  intros not_a_dll_app result. subst result not_a_dll_app.
  unfold Dll.getAppDllWebpackConfig.
  destruct (Dll._isDll _); cbn [negb orb].
  - case_bool_decide as Htype; cbn [negb].
    + split; [by intros [?|?]|]. intros cfg Hcfg.
      apply bind_Ok_inv in Hcfg as (configs & _ & Hcfg).
      split; [|by intros [?|?]]. intros Hno. exfalso.
      destruct (Webpack.entry_falsy _ || Webpack.entry_object_without_keys _)
        eqn:Hcond; injection Hcfg as <-.
      * destruct Hno as [Hno|Hno]; cbn in Hno; discriminate.
      * apply orb_false_iff in Hcond as [Hfalsy Hkeys].
        destruct Hno as [Hno|Hno]; rewrite Hno in *; done.
    + split; [done|]. intros cfg [= <-]. split; [by right|by left].
  - split; [done|]. intros cfg [= <-]. split; [by left|by left].
Qed.

(** ** More on the styles fragment *)

Section StyleEntriesMore.
Import Styles.

Implicit Types (entryPoints : Webpack.entry_object) (style : StyleParsedEntry).

(** The paths one more style adds under the key [k]. *)
Lemma entry_lookup_addStyleEntry entryPoints style k :
  Webpack.entry_lookup (addStyleEntry entryPoints style) k
  = if String.eqb (entry style) k
    then Some (default [] (Webpack.entry_lookup entryPoints k) ++ [path style])%list
    else Webpack.entry_lookup entryPoints k.
Proof.
  induction entryPoints as [|[k' paths] rest IH]; cbn.
  - by destruct (String.eqb (entry style) k).
  - destruct (String.eqb_spec k' (entry style)) as [->|Hne]; cbn.
    + by destruct (String.eqb (entry style) k).
    + destruct (String.eqb_spec k' k) as [->|Hne'].
      * by rewrite (proj2 (String.eqb_neq _ _)) by done.
      * apply IH.
Qed.

Lemma keys_addStyleEntry entryPoints style :
  fst <$> addStyleEntry entryPoints style
  = if bool_decide (entry style ∈ fst <$> entryPoints)
    then fst <$> entryPoints
    else ((fst <$> entryPoints) ++ [entry style])%list.
Proof.
  induction entryPoints as [|[k' paths] rest IH]; cbn; [done|].
  destruct (String.eqb_spec k' (entry style)) as [->|Hne]; cbn.
  - rewrite bool_decide_eq_true_2; [done|by left].
  - rewrite IH. case_bool_decide as Hin.
    + rewrite bool_decide_eq_true_2; [done|by right].
    + rewrite bool_decide_eq_false_2; [done|].
      intros [?|?]%elem_of_cons; congruence.
Qed.

Lemma keys_addStyleEntry_NoDup entryPoints style :
  NoDup (fst <$> entryPoints) → NoDup (fst <$> addStyleEntry entryPoints style).
Proof.
  intros Hnd. rewrite keys_addStyleEntry. case_bool_decide as Hin; [done|].
  apply NoDup_app. split; [done|]. split; [|apply NoDup_singleton].
  by intros ? ? ->%list_elem_of_singleton.
Qed.

(** The loop over the parsed styles, started from any entry object. *)
Lemma foldl_addStyleEntry_lookup (parsed : list StyleParsedEntry) :
  ∀ entryPoints k,
    Webpack.entry_lookup (foldl addStyleEntry entryPoints parsed) k
    = match Webpack.entry_lookup entryPoints k,
            path <$> List.filter (λ style, String.eqb (entry style) k) parsed with
      | None, [] => None
      | old, new => Some (default [] old ++ new)%list
      end.
Proof.
  induction parsed as [|style parsed IH]; intros entryPoints k; cbn.
  - destruct (Webpack.entry_lookup entryPoints k); [|done].
    cbn. by rewrite app_nil_r.
  - rewrite IH, entry_lookup_addStyleEntry.
    destruct (String.eqb (entry style) k); cbn; [|done].
    rewrite <- app_assoc. cbn.
    by destruct (Webpack.entry_lookup entryPoints k).
Qed.

Lemma foldl_addStyleEntry_NoDup (parsed : list StyleParsedEntry) : ∀ entryPoints,
  NoDup (fst <$> entryPoints) →
  NoDup (fst <$> foldl addStyleEntry entryPoints parsed).
Proof.
  induction parsed as [|style parsed IH]; intros entryPoints Hnd; [done|].
  cbn. by apply IH, keys_addStyleEntry_NoDup.
Qed.

End StyleEntriesMore.

(** X23 — the style entry points group the parsed global styles by chunk:
    no chunk name occurs twice among the keys, and the array under a chunk
    name is made of the paths of the styles of that chunk, in the order in
    which they were parsed; a name no style goes to is not a key. *)
Theorem style_entry_points_group_by_chunk (parsed : list Styles.StyleParsedEntry) :
  let entryPoints := foldl Styles.addStyleEntry [] parsed in
  NoDup (fst <$> entryPoints)
  ∧ ∀ k,
      Webpack.entry_lookup entryPoints k
      = match Styles.path
                <$> List.filter (λ style, String.eqb (Styles.entry style) k) parsed with
        | [] => None
        | paths => Some paths
        end.
Proof.
  split.
  - apply foldl_addStyleEntry_NoDup. cbn. apply NoDup_nil_2.
  - intros k. by rewrite foldl_addStyleEntry_lookup.
Qed.


(** X25 — the rules of the styles fragment split the style sheets in two:
    three rules (css, scss/sass, less) that exclude the global style files,
    always; and, only in the main web build of a project with global styles,
    three more rules for the same tests that include exactly those files. *)
Theorem style_rules_split_global_styles {StyleEntry : Type}
    (path_resolve : string → string → string)
    (parseStyleEntry :
       list StyleEntry → string → string → result (list Styles.StyleParsedEntry))
    (webpackConfigOptions : Styles.WebpackConfigOptions StyleEntry)
    (cfg : Webpack.Configuration) :
  Styles.getStylesConfigPartial path_resolve parseStyleEntry webpackConfigOptions
    = Ok cfg →
  ∃ parsed componentRules globalRules,
    Styles.parseGlobalStyles path_resolve parseStyleEntry webpackConfigOptions
      = Ok parsed
    ∧ Webpack.module_rules cfg = Some (componentRules ++ globalRules)%list
    ∧ Webpack.test <$> componentRules = ["\.css$"; "\.scss$|\.sass$"; "\.less$"]
    ∧ Forall (λ rule, Webpack.exclude rule = Some (Styles.path <$> parsed)
                      ∧ Webpack.include rule = None) componentRules
    ∧ Forall (λ rule, Webpack.include rule = Some (Styles.path <$> parsed)
                      ∧ Webpack.exclude rule = None) globalRules
    ∧ Webpack.test <$> globalRules
      = if Styles.mainWebBuild (Styles.projectConfig webpackConfigOptions)
             (Styles.activeEnvironment webpackConfigOptions)
           && (0 <? length parsed)%nat
        then ["\.css$"; "\.scss$|\.sass$"; "\.less$"]
        else [].
Proof.
  unfold Styles.getStylesConfigPartial. intros Hcfg.
  apply bind_Ok_inv in Hcfg as (parsed & Hparsed & Hcfg).
  exists parsed.
  destruct (Styles.mainWebBuild _ _); cbn [andb];
    [destruct (0 <? length parsed)%nat|];
    injection Hcfg as <-; cbn [Webpack.module_rules];
    eexists [_; _; _], _;
    (split; [done|]); (split; [reflexivity|]);
    (split; [reflexivity|]); (split; [by repeat constructor|]);
    (split; [by repeat constructor|reflexivity]).
Qed.

Lemma style_rules_split_global_styles_witness :
  ∃ cfg rules,
    Styles.getStylesConfigPartial Styles.examplePathResolve
      Styles.exampleParseStyleEntry
      (Styles.exampleStylesOptions {| Styles.dll := false; Styles.test := false |})
      = Ok cfg
    ∧ Webpack.module_rules cfg = Some rules
    ∧ length rules = 6.
Proof.
  eexists.
  destruct (style_rules_split_global_styles Styles.examplePathResolve
              Styles.exampleParseStyleEntry
              (Styles.exampleStylesOptions
                 {| Styles.dll := false; Styles.test := false |})
              _ eq_refl)
    as (parsed & componentRules & globalRules
        & Hparsed & Hrules & Hcomponent & _ & _ & Hglobal).
  injection Hparsed as <-.
  exists (componentRules ++ globalRules)%list.
  split; [reflexivity|]. split; [exact Hrules|].
  rewrite length_app, <- (length_fmap Webpack.test componentRules),
    <- (length_fmap Webpack.test globalRules), Hcomponent, Hglobal.
  reflexivity.
Defined.
